(** * Invoice generator: totals, theme fallbacks, PDF composition and delivery

    A shallow embedding of the two [InvoiceGenerator] React components of the
    repository:

    - the themed multi-item generator (line items, 8% tax, brand theme,
      [generatePDF] ending in [doc.save]), embedded in [Module InvoiceGenerator];
    - the hours-times-rate generator that validates a form, builds the PDF and
      mails it ([validateForm], [generatePDF], [handleGenerateAndSend]),
      embedded in [Module EmailInvoice].

    JavaScript numbers are IEEE 754 binary64 values: they are embedded as
    Rocq's primitive floats, so [+] and [*] below round exactly as the
    program's do.  Strings are embedded as [string], read as sequences of code
    units below 256. *)

From Stdlib Require Import ZArith List String Ascii Bool Lia DecimalString.
From Stdlib Require Import PrimFloat FloatOps SpecFloat Uint63.
From Stdlib Require FloatAxioms.
Import ListNotations.

Set Warnings "-inexact-float".

(* ================================================================== *)
(** * Part I: the embedding *)
(* ================================================================== *)

(** ** JavaScript values used by the components *)

Module JS.

Definition number := float.

(** [\s] of regular expressions and the characters [String.prototype.trim]
    strips (WhiteSpace and LineTerminator), restricted to code units < 256:
    TAB, LF, VT, FF, CR, SP and NBSP. *)
Definition isWhiteSpace (c : ascii) : bool :=
  match N_of_ascii c with
  | 9%N | 10%N | 11%N | 12%N | 13%N | 32%N | 160%N => true
  | _ => false
  end.

Fixpoint trimStart (s : string) : string :=
  match s with
  | EmptyString => EmptyString
  | String c s' => if isWhiteSpace c then trimStart s' else s
  end.

Fixpoint trimEnd (s : string) : string :=
  match s with
  | EmptyString => EmptyString
  | String c s' =>
      let t := trimEnd s' in
      if isWhiteSpace c && String.eqb t EmptyString then EmptyString
      else String c t
  end.

(** [s.trim()] *)
Definition trim (s : string) : string := trimEnd (trimStart s).

(** [s.includes(sub)] *)
Fixpoint includes (s sub : string) : bool :=
  String.prefix sub s ||
  match s with
  | EmptyString => false
  | String _ s' => includes s' sub
  end.

(** ToBoolean on a string: every string but the empty one is truthy. *)
Definition truthy (s : string) : bool := negb (String.eqb s EmptyString).

(** [v || d] where [v] is a string or [undefined]. *)
Definition or_default (v : option string) (d : string) : string :=
  match v with
  | Some s => if truthy s then s else d
  | None => d
  end.

(** [o?.f]: [undefined] when [o] is [null]. *)
Definition opt_chain {A : Type} (o : option A) (f : A -> string) : option string :=
  match o with
  | Some a => Some (f a)
  | None => None
  end.

(** [s.toLowerCase()] on code units < 256: A-Z and the Latin-1 capitals
    U+00C0..U+00DE (the multiplication sign U+00D7 apart) move up by 32.
    Beyond that range the built-in may lengthen a string (U+0130) and looks
    at the neighbours of a capital sigma; no statement below relies on the
    length of a lowered string or on lowering character by character, only
    on lowering creating no white space. *)
Definition lowerChar (c : ascii) : ascii :=
  let n := N_of_ascii c in
  if ((65 <=? n) && (n <=? 90) || (192 <=? n) && (n <=? 222) && negb (n =? 215))%N
  then ascii_of_N (n + 32) else c.

Fixpoint toLowerCase (s : string) : string :=
  match s with
  | EmptyString => EmptyString
  | String c s' => String (lowerChar c) (toLowerCase s')
  end.

(** [s.replace(/\s+/g, r)]: every maximal run of white space becomes one [r].
    [inRun] tells that the previous character was white space. *)
Fixpoint replaceRuns (inRun : bool) (r : string) (s : string) : string :=
  match s with
  | EmptyString => EmptyString
  | String c s' =>
      if isWhiteSpace c
      then (if inRun then replaceRuns true r s'
            else String.append r (replaceRuns true r s'))
      else String c (replaceRuns false r s')
  end.

Definition replaceWhiteSpace (r s : string) : string := replaceRuns false r s.

(** [n.toString()] of an integral time value such as [Date.now()]. *)
Definition timeToString (t : Z) : string := NilZero.string_of_int (Z.to_int t).

End JS.

(** ** The calls made on a jsPDF document *)

Module PDF.

(** A text run is kept as the template literal that builds it: literal chunks
    and the number conversions embedded in them. *)
Inductive piece : Type :=
| Lit (s : string)
| NumToString (n : JS.number)     (* n.toString() *)
| NumToFixed2 (n : JS.number)     (* n.toFixed(2) *)
| TimeValue (t : Z)               (* `${Date.now()}` *)
| LocaleDate (t : Z).             (* new Date().toLocaleDateString() *)

Definition text := list piece.

Inductive color : Type :=
| Hex (s : string)
| RGB (r g b : JS.number).

Inductive align : Type := AlignLeft | AlignCenter | AlignRight.

(** One constructor per jsPDF method; [AddPage] is the only one that opens a
    new page. *)
Inductive docOp : Type :=
| SetFontSize (size : JS.number)
| SetTextColor (c : color)
| SetFillColor (c : color)
| Rect (x y w h : JS.number) (style : string)
| Text (t : text) (x y : JS.number) (a : align)
| TextLines (lines : list string) (x y : JS.number)
| AddPage.

Definition isAddPage (op : docOp) : bool :=
  match op with AddPage => true | _ => false end.

(** Number of pages of the document a call sequence builds: [new jsPDF()]
    starts with one page and every [addPage] adds one. *)
Definition pageCount (ops : list docOp) : nat :=
  S (List.length (filter isAddPage ops)).

(** Vertical position of a drawing call, when it draws. *)
Definition yOf (op : docOp) : option JS.number :=
  match op with
  | Text _ _ y _ => Some y
  | TextLines _ _ y => Some y
  | Rect _ y _ _ _ => Some y
  | _ => None
  end.

(** Height of jsPDF's default page (A4 portrait, millimetres). *)
Definition a4Height : JS.number := 297.0000833333333%float.

(** Width of jsPDF's default page (A4 portrait, millimetres). *)
Definition a4Width : JS.number := 210.0015555555555%float.

End PDF.

Record Toast : Type := mkToast
  { toast_title : string;
    toast_description : string;
    toast_variant : option string }.

(** ** The themed multi-item generator *)

Module InvoiceGenerator.
Import JS PDF.
Local Open Scope string_scope.
Local Open Scope list_scope.
Local Open Scope float_scope.

Module InvoiceItem.
Record t : Type := mk
  { id : string;
    description : string;
    quantity : number;
    rate : number;
    amount : number }.
End InvoiceItem.

Module ClientInfo.
Record t : Type := mk
  { name : string;
    email : string;
    company : option string;
    address : option string;
    phone : option string }.
End ClientInfo.

Module BrandTheme.
Record Colors : Type := mkColors
  { primary : string; secondary : string; accent : string }.
Record Fonts : Type := mkFonts
  { heading : string; body : string }.
Record t : Type := mk
  { id : string; name : string; colors : Colors; fonts : Fonts }.
End BrandTheme.

(** The fields of an expense that [handleExpenseItemsAdd] reads. *)
Module ExpenseItem.
Record t : Type := mk
  { description : string; amount : number }.
End ExpenseItem.

(** The component's state: one field per [useState]. *)
Record State : Type := mkState
  { invoiceNumber : string;
    invoiceDate : string;
    dueDate : string;
    clientInfo : ClientInfo.t;
    items : list InvoiceItem.t;
    notes : string;
    appliedTheme : option BrandTheme.t }.

Definition initialItems : list InvoiceItem.t :=
  [ InvoiceItem.mk "1" "" 1 0 0 ].

(** The state of the first render; [today] is
    [new Date().toISOString().split('T')[0]]. *)
Definition initialState (today : string) : State :=
  {| invoiceNumber := "INV-001";
     invoiceDate := today;
     dueDate := "";
     clientInfo := ClientInfo.mk "" "" (Some "") (Some "") (Some "");
     items := initialItems;
     notes := "";
     appliedTheme := None |}.

(** *** Line items *)

(** [addItem]; [now] is the value of [Date.now()]. *)
Definition addItem (now : Z) (items : list InvoiceItem.t) : list InvoiceItem.t :=
  let newItem := InvoiceItem.mk (timeToString now) "" 1 0 0 in
  items ++ [newItem].

Definition removeItem (id : string) (items : list InvoiceItem.t)
  : list InvoiceItem.t :=
  if (1 <? List.length items)%nat
  then filter (fun item => negb (String.eqb (InvoiceItem.id item) id)) items
  else items.

(** The pair [(field, value)] of [updateItem], with the value typed by the
    field it is stored in.  The form calls [updateItem] with [description]
    and a string, and with [quantity] or [rate] and a number. *)
Inductive edit : Type :=
| SetId (value : string)
| SetDescription (value : string)
| SetQuantity (value : number)
| SetRate (value : number)
| SetAmount (value : number).

(** [{ ...item, [field]: value }] *)
Definition assign (item : InvoiceItem.t) (e : edit) : InvoiceItem.t :=
  match e with
  | SetId v =>
      InvoiceItem.mk v (InvoiceItem.description item) (InvoiceItem.quantity item)
        (InvoiceItem.rate item) (InvoiceItem.amount item)
  | SetDescription v =>
      InvoiceItem.mk (InvoiceItem.id item) v (InvoiceItem.quantity item)
        (InvoiceItem.rate item) (InvoiceItem.amount item)
  | SetQuantity v =>
      InvoiceItem.mk (InvoiceItem.id item) (InvoiceItem.description item) v
        (InvoiceItem.rate item) (InvoiceItem.amount item)
  | SetRate v =>
      InvoiceItem.mk (InvoiceItem.id item) (InvoiceItem.description item)
        (InvoiceItem.quantity item) v (InvoiceItem.amount item)
  | SetAmount v =>
      InvoiceItem.mk (InvoiceItem.id item) (InvoiceItem.description item)
        (InvoiceItem.quantity item) (InvoiceItem.rate item) v
  end.

(** [field === 'quantity' || field === 'rate'] *)
Definition isQuantityOrRate (e : edit) : bool :=
  match e with
  | SetQuantity _ | SetRate _ => true
  | _ => false
  end.

Definition updateItem (id : string) (e : edit) (items : list InvoiceItem.t)
  : list InvoiceItem.t :=
  map (fun item =>
         if String.eqb (InvoiceItem.id item) id then
           let updatedItem := assign item e in
           if isQuantityOrRate e then
             InvoiceItem.mk (InvoiceItem.id updatedItem)
               (InvoiceItem.description updatedItem)
               (InvoiceItem.quantity updatedItem)
               (InvoiceItem.rate updatedItem)
               (InvoiceItem.quantity updatedItem * InvoiceItem.rate updatedItem)
           else updatedItem
         else item)
      items.

(** [handleExpenseItemsAdd]; [stamp i] is the value of
    [Date.now().toString() + Math.random()] for the i-th expense. *)
Fixpoint expenseRows (stamp : nat -> string) (i : nat)
  (expenseItems : list ExpenseItem.t) : list InvoiceItem.t :=
  match expenseItems with
  | [] => []
  | expense :: rest =>
      InvoiceItem.mk (stamp i) (ExpenseItem.description expense) 1
        (ExpenseItem.amount expense) (ExpenseItem.amount expense)
      :: expenseRows stamp (S i) rest
  end.

Definition handleExpenseItemsAdd (stamp : nat -> string)
  (expenseItems : list ExpenseItem.t) (items : list InvoiceItem.t)
  : list InvoiceItem.t :=
  let newItems := expenseRows stamp 0 expenseItems in
  items ++ newItems.

(** The handlers that change the item list, as events of the form. *)
Inductive event : Type :=
| AddItem (now : Z)
| RemoveItem (id : string)
| UpdateItem (id : string) (e : edit)
| ExpenseItemsAdd (stamp : nat -> string) (expenseItems : list ExpenseItem.t).

Definition handle (items : list InvoiceItem.t) (ev : event) : list InvoiceItem.t :=
  match ev with
  | AddItem now => addItem now items
  | RemoveItem id => removeItem id items
  | UpdateItem id e => updateItem id e items
  | ExpenseItemsAdd stamp expenseItems =>
      handleExpenseItemsAdd stamp expenseItems items
  end.

(** The item list after a sequence of events, from the first render on. *)
Definition itemsAfter (evs : list event) : list InvoiceItem.t :=
  fold_left handle evs initialItems.

(** *** Totals *)

Definition subtotal (items : list InvoiceItem.t) : number :=
  fold_left (fun sum item => sum + InvoiceItem.amount item) items 0.

Definition tax (items : list InvoiceItem.t) : number :=
  subtotal items * 0.08.

Definition total (items : list InvoiceItem.t) : number :=
  subtotal items + tax items.

(** *** Theme fallbacks *)

(** [appliedTheme?.colors.primary || '#2563eb'] ([primaryColor] of
    [generatePDF]; also the colour of the preview's title, "Bill To:",
    "Total:" and "Notes:"). *)
Definition primaryColor (appliedTheme : option BrandTheme.t) : string :=
  or_default
    (opt_chain appliedTheme (fun t => BrandTheme.primary (BrandTheme.colors t)))
    "#2563eb".

(** [appliedTheme?.colors.secondary || '#1f2937'] (the preview's text colour). *)
Definition secondaryColor (appliedTheme : option BrandTheme.t) : string :=
  or_default
    (opt_chain appliedTheme (fun t => BrandTheme.secondary (BrandTheme.colors t)))
    "#1f2937".

(** [appliedTheme?.colors.accent || '#f59e0b'] (the border of the preview's
    table header). *)
Definition accentColor (appliedTheme : option BrandTheme.t) : string :=
  or_default
    (opt_chain appliedTheme (fun t => BrandTheme.accent (BrandTheme.colors t)))
    "#f59e0b".

(** [appliedTheme?.fonts.heading || 'inherit'] (the preview's title). *)
Definition headingFont (appliedTheme : option BrandTheme.t) : string :=
  or_default
    (opt_chain appliedTheme (fun t => BrandTheme.heading (BrandTheme.fonts t)))
    "inherit".

(** [appliedTheme?.fonts.body || 'inherit'] (the preview's body). *)
Definition bodyFont (appliedTheme : option BrandTheme.t) : string :=
  or_default
    (opt_chain appliedTheme (fun t => BrandTheme.body (BrandTheme.fonts t)))
    "inherit".

(** *** PDF composition ([generatePDF]) *)

(** A [doc.text(s, x, y)] call; jsPDF aligns left when no option is given. *)
Definition drawText (t : text) (x y : number) : docOp := Text t x y AlignLeft.

(** "Bill To:" and the client's name, company and e-mail; the last two only
    when truthy. *)
Definition billTo (c : ClientInfo.t) : list docOp :=
  [ drawText [Lit "Bill To:"] 120 50;
    drawText [Lit (ClientInfo.name c)] 120 60 ]
  ++ match ClientInfo.company c with
     | Some company => if truthy company then [drawText [Lit company] 120 70] else []
     | None => []
     end
  ++ (if truthy (ClientInfo.email c)
      then [drawText [Lit (ClientInfo.email c)] 120 80] else []).

(** The header row of the item table. *)
Definition tableHeader (yPosition : number) : list docOp :=
  [ drawText [Lit "Description"] 20 yPosition;
    drawText [Lit "Qty"] 120 yPosition;
    drawText [Lit "Rate"] 140 yPosition;
    drawText [Lit "Amount"] 170 yPosition ].

(** The body of [items.forEach], without its [yPosition += 10]. *)
Definition itemRow (item : InvoiceItem.t) (yPosition : number) : list docOp :=
  [ drawText [Lit (InvoiceItem.description item)] 20 yPosition;
    drawText [NumToString (InvoiceItem.quantity item)] 120 yPosition;
    drawText [Lit "$"; NumToFixed2 (InvoiceItem.rate item)] 140 yPosition;
    drawText [Lit "$"; NumToFixed2 (InvoiceItem.amount item)] 170 yPosition ].

(** [items.forEach(...)]: the calls made and the final [yPosition]. *)
Fixpoint itemRows (items : list InvoiceItem.t) (yPosition : number)
  : list docOp * number :=
  match items with
  | [] => ([], yPosition)
  | item :: rest =>
      let (ops, y) := itemRows rest (yPosition + 10) in
      (itemRow item yPosition ++ ops, y)
  end.

Definition totalsBlock (items : list InvoiceItem.t) (yPosition : number)
  : list docOp :=
  [ drawText [Lit "Subtotal: $"; NumToFixed2 (subtotal items)] 140 yPosition;
    drawText [Lit "Tax: $"; NumToFixed2 (tax items)] 140 (yPosition + 10);
    SetFontSize 14;
    drawText [Lit "Total: $"; NumToFixed2 (total items)] 140 (yPosition + 20) ].

Definition notesBlock (notes : string) (yPosition : number) : list docOp :=
  if truthy notes then
    [ SetFontSize 10;
      drawText [Lit "Notes:"] 20 (yPosition + 30);
      drawText [Lit notes] 20 (yPosition + 40) ]
  else [].

(** The title in the theme's primary colour and the invoice details. *)
Definition titleAndDetails (st : State) : list docOp :=
  let primaryColor := primaryColor (appliedTheme st) in
  [ SetFontSize 24;
    SetTextColor (Hex primaryColor);
    drawText [Lit "INVOICE"] 20 30;
    SetFontSize 12;
    SetTextColor (Hex "#000000");
    drawText [Lit ("Invoice #: " ++ invoiceNumber st)] 20 50;
    drawText [Lit ("Date: " ++ invoiceDate st)] 20 60;
    drawText [Lit ("Due Date: " ++ dueDate st)] 20 70 ].

(** Every call [generatePDF] makes on [doc] before [doc.save]. *)
Definition document (st : State) : list docOp :=
  titleAndDetails st
  ++ billTo (clientInfo st)
  ++ (let yPosition := 100 in
      tableHeader yPosition
      ++ (let yPosition := yPosition + 10 in
          let (rows, yPosition) := itemRows (items st) yPosition in
          rows
          ++ (let yPosition := yPosition + 10 in
              totalsBlock (items st) yPosition
              ++ notesBlock (notes st) yPosition))).

(** The name given to [doc.save]. *)
Definition saveName (st : State) : string :=
  "invoice-" ++ invoiceNumber st ++ ".pdf".

(** What the page has received from the component: the files handed to the
    browser by [doc.save] and the toasts shown. *)
Record Download : Type := mkDownload
  { fileName : string; content : list docOp }.

Record World : Type := mkWorld
  { downloads : list Download; toasts : list Toast }.

Definition generatePDF (st : State) (w : World) : World :=
  let doc := document st in
  {| downloads := downloads w ++ [ mkDownload (saveName st) doc ];
     toasts := toasts w ++
       [ mkToast "PDF Generated!"
           "Your invoice has been downloaded successfully." None ] |}.

End InvoiceGenerator.

(** ** The generator that mails the invoice *)

Module EmailInvoice.
Import JS PDF.
Local Open Scope string_scope.
Local Open Scope list_scope.
Local Open Scope float_scope.

Record InvoiceData : Type := mkInvoiceData
  { clientName : string;
    serviceDescription : string;
    totalHours : number;
    hourlyRate : number;
    userName : string;
    userEmail : string }.

Definition emptyForm : InvoiceData := mkInvoiceData "" "" 0 0 "" "".

(** What the component uses of jsPDF beyond drawing calls:
    [doc.internal.pageSize.width] and [doc.splitTextToSize], the latter at
    the font size current when it is called. *)
Record Backend : Type := mkBackend
  { pageWidth : number;
    splitTextToSize : number -> string -> number -> list string }.

(** A thrown value: [new Error(message)], or the reason of a rejected
    promise. *)
Inductive exn : Type :=
| ErrorObject (message : string)
| Reason (r : string).

(** What [await sendEmail(...)] yields: an object with an optional [error],
    or a rejection. *)
Inductive SendResult : Type :=
| Resolved (error : option string)
| Rejected (reason : string).

Record Attachment : Type := mkAttachment
  { filename : text;
    content : list docOp;
    mimeType : string;
    disposition : string }.

(** The argument of [sendEmail].  Of the HTML body only the values
    interpolated into its fixed markup are kept, in their order. *)
Record EmailRequest : Type := mkEmailRequest
  { from : string;
    to : list string;
    subject : text;
    html : text;
    attachments : list Attachment }.

Inductive LogEntry : Type :=
| ConsoleLog (message : string)
| ConsoleError (message : string) (error : exn).

(** The component's state and what it has done to its surroundings.
    [clock n] is the time the n-th reading of the clock returns and [ticks]
    counts the readings made. *)
Record World : Type := mkWorld
  { formData : InvoiceData;
    isGenerating : bool;
    isSending : bool;
    toasts : list Toast;
    console : list LogEntry;
    outbox : list EmailRequest;
    clock : nat -> Z;
    ticks : nat }.

(** *** Commands: state passing with exceptions *)

Inductive result (A : Type) : Type :=
| Ok (a : A)
| Throw (e : exn).
Arguments Ok {A} a.
Arguments Throw {A} e.

Definition M (A : Type) : Type := World -> result A * World.

Definition ret {A : Type} (a : A) : M A := fun w => (Ok a, w).

Definition bind {A B : Type} (m : M A) (k : A -> M B) : M B :=
  fun w =>
    match m w with
    | (Ok a, w') => k a w'
    | (Throw e, w') => (Throw e, w')
    end.

Definition throw {A : Type} (e : exn) : M A := fun w => (Throw e, w).

Notation "x <- m ;; k" := (bind m (fun x => k))
  (at level 61, m at next level, right associativity).
Notation "m ;; k" := (bind m (fun _ => k))
  (at level 61, right associativity).

(** [try { body } catch (e) { handler } finally { finalizer }] *)
Definition tryCatchFinally {A : Type} (body : M A) (handler : exn -> M A)
  (finalizer : M unit) : M A :=
  fun w =>
    let (r, w1) := body w in
    let (r', w2) := match r with
                    | Ok a => (Ok a, w1)
                    | Throw e => handler e w1
                    end in
    let (rf, w3) := finalizer w2 in
    match rf with
    | Ok _ => (r', w3)
    | Throw e => (Throw e, w3)
    end.

Definition getFormData : M InvoiceData := fun w => (Ok (formData w), w).

Definition setFormData (d : InvoiceData) : M unit :=
  fun w => (Ok tt, mkWorld d (isGenerating w) (isSending w) (toasts w)
                     (console w) (outbox w) (clock w) (ticks w)).

Definition setIsGenerating (b : bool) : M unit :=
  fun w => (Ok tt, mkWorld (formData w) b (isSending w) (toasts w)
                     (console w) (outbox w) (clock w) (ticks w)).

Definition setIsSending (b : bool) : M unit :=
  fun w => (Ok tt, mkWorld (formData w) (isGenerating w) b (toasts w)
                     (console w) (outbox w) (clock w) (ticks w)).

Definition toast (t : Toast) : M unit :=
  fun w => (Ok tt, mkWorld (formData w) (isGenerating w) (isSending w)
                     (toasts w ++ [t]) (console w) (outbox w) (clock w)
                     (ticks w)).

Definition consoleWrite (e : LogEntry) : M unit :=
  fun w => (Ok tt, mkWorld (formData w) (isGenerating w) (isSending w)
                     (toasts w) (console w ++ [e]) (outbox w) (clock w)
                     (ticks w)).

(** [Date.now()] and [new Date()]. *)
Definition readClock : M Z :=
  fun w => (Ok (clock w (ticks w)),
            mkWorld (formData w) (isGenerating w) (isSending w) (toasts w)
              (console w) (outbox w) (clock w) (S (ticks w))).

(** [await window.ezsite.apis.sendEmail(request)]: the request leaves the
    page and the service answers. *)
Definition awaitSendEmail (sendEmail : EmailRequest -> SendResult)
  (request : EmailRequest) : M (option string) :=
  fun w =>
    let w' := mkWorld (formData w) (isGenerating w) (isSending w) (toasts w)
                (console w) (outbox w ++ [request]) (clock w) (ticks w) in
    match sendEmail request with
    | Resolved error => (Ok error, w')
    | Rejected reason => (Throw (Reason reason), w')
    end.

(** *** [validateForm] *)

Definition validationError (description : string) : M bool :=
  toast (mkToast "Validation Error" description (Some "destructive")) ;;
  ret false.

Definition validateForm : M bool :=
  formData <- getFormData ;;
  if negb (truthy (trim (clientName formData))) then
    validationError "Please enter the client's name"
  else if negb (truthy (trim (serviceDescription formData))) then
    validationError "Please enter a service description"
  else if totalHours formData <=? 0 then
    validationError "Please enter valid total hours"
  else if hourlyRate formData <=? 0 then
    validationError "Please enter a valid hourly rate"
  else if negb (truthy (trim (userName formData))) then
    validationError "Please enter your name"
  else if negb (truthy (trim (userEmail formData)))
          || negb (includes (userEmail formData) "@") then
    validationError "Please enter a valid email address"
  else ret true.

(** *** [generatePDF] *)

Definition drawText (t : text) (x y : number) : docOp := Text t x y AlignLeft.

Definition blue : color := RGB 59 130 246.
Definition black : color := RGB 0 0 0.

(** The calls made on [doc]; the value returned stands for
    [doc.output('datauristring')], the document as the calls built it. *)
Definition generatePDF (b : Backend) : M (list docOp) :=
  formData <- getFormData ;;
  let pageWidth := pageWidth b in
  let total := totalHours formData * hourlyRate formData in
  invoiceDate <- readClock ;;
  now <- readClock ;;
  let splitDescription :=
    splitTextToSize b 12 (serviceDescription formData) (pageWidth - 40) in
  let tableStartY := 200 in
  ret
    [ SetFontSize 24;
      SetTextColor blue;
      Text [Lit "INVOICE"] (pageWidth / 2) 30 AlignCenter;
      SetFontSize 12;
      SetTextColor black;
      drawText [Lit "Invoice Date: "; LocaleDate invoiceDate] 20 50;
      drawText [Lit "Invoice #: INV-"; TimeValue now] 20 60;
      SetFontSize 14;
      SetTextColor blue;
      drawText [Lit "From:"] 20 80;
      SetFontSize 12;
      SetTextColor black;
      drawText [Lit (userName formData)] 20 90;
      drawText [Lit (userEmail formData)] 20 100;
      SetFontSize 14;
      SetTextColor blue;
      drawText [Lit "To:"] 20 120;
      SetFontSize 12;
      SetTextColor black;
      drawText [Lit (clientName formData)] 20 130;
      SetFontSize 14;
      SetTextColor blue;
      drawText [Lit "Service Description:"] 20 160;
      SetFontSize 12;
      SetTextColor black;
      TextLines splitDescription 20 170;
      SetFontSize 12;
      SetFillColor blue;
      Rect 20 tableStartY (pageWidth - 40) 10 "F";
      SetTextColor (RGB 255 255 255);
      drawText [Lit "Description"] 25 (tableStartY + 7);
      drawText [Lit "Hours"] 100 (tableStartY + 7);
      drawText [Lit "Rate"] 130 (tableStartY + 7);
      drawText [Lit "Total"] 160 (tableStartY + 7);
      SetTextColor black;
      drawText [Lit "Professional Services"] 25 (tableStartY + 20);
      drawText [NumToString (totalHours formData)] 100 (tableStartY + 20);
      drawText [Lit "$"; NumToFixed2 (hourlyRate formData)] 130 (tableStartY + 20);
      drawText [Lit "$"; NumToFixed2 total] 160 (tableStartY + 20);
      SetFontSize 14;
      SetTextColor blue;
      Text [Lit "Total Amount: $"; NumToFixed2 total] (pageWidth - 80)
        (tableStartY + 40) AlignRight;
      SetFontSize 10;
      SetTextColor (RGB 128 128 128);
      Text [Lit "Thank you for your business!"] (pageWidth / 2) 270 AlignCenter ].

(** *** [handleGenerateAndSend] *)

(** The name of the attached file. *)
Definition attachmentName (formData : InvoiceData) (now : Z) : text :=
  [ Lit ("invoice-"
         ++ toLowerCase (replaceWhiteSpace "-" (clientName formData))
         ++ "-");
    TimeValue now;
    Lit ".pdf" ].

Definition emailRequest (formData : InvoiceData) (pdfBase64 : list docOp)
  (today now : Z) : EmailRequest :=
  {| from := "support@ezsite.ai";
     to := [userEmail formData];
     subject := [ Lit ("Invoice for " ++ clientName formData ++ " - ");
                  LocaleDate today ];
     html := [ Lit (userName formData);
               Lit (clientName formData);
               Lit (serviceDescription formData);
               NumToString (totalHours formData);
               NumToFixed2 (hourlyRate formData);
               NumToFixed2 (totalHours formData * hourlyRate formData) ];
     attachments := [ mkAttachment (attachmentName formData now) pdfBase64
                        "application/pdf" "attachment" ] |}.

Definition successToast : Toast :=
  mkToast "Success!"
    "Your invoice has been generated and sent to your email."
    (Some "default").

Definition failureToast : Toast :=
  mkToast "Error"
    "Failed to generate or send the invoice. Please try again."
    (Some "destructive").

(** The asynchronous handler run to completion: [Ok tt] is a promise that
    resolves, [Throw e] one that rejects with [e]. *)
Definition handleGenerateAndSend (b : Backend)
  (sendEmail : EmailRequest -> SendResult) : M unit :=
  valid <- validateForm ;;
  if negb valid then ret tt
  else
    setIsGenerating true ;;
    setIsSending true ;;
    tryCatchFinally
      (consoleWrite (ConsoleLog "Generating PDF invoice...") ;;
       pdfData <- generatePDF b ;;
       let pdfBase64 := pdfData in
       consoleWrite (ConsoleLog "Sending email with invoice...") ;;
       formData <- getFormData ;;
       today <- readClock ;;
       now <- readClock ;;
       error <- awaitSendEmail sendEmail
                  (emailRequest formData pdfBase64 today now) ;;
       match error with
       | Some message =>
           if truthy message then throw (ErrorObject message) else ret tt
       | None => ret tt
       end ;;
       toast successToast ;;
       setFormData emptyForm)
      (fun error =>
         consoleWrite
           (ConsoleError "Error generating or sending invoice:" error) ;;
         toast failureToast)
      (setIsGenerating false ;;
       setIsSending false).

End EmailInvoice.

(** ** Notions of the specification the claims are stated with *)

Module Spec.
Import JS PDF InvoiceGenerator.
Local Open Scope string_scope.
Local Open Scope list_scope.

(** The specification's [round2], fixed 2-decimal rounding: the number
    nearest to [k / 100], where [k] is the integer nearest to [100 x] (ties
    upwards), computed on the exact value of [x].  A number of magnitude
    2^53 or more is integral and is its own rounding. *)
Definition round2 (x : number) : number :=
  match Prim2SF x with
  | S754_finite s m e =>
      if (0 <=? e)%Z then x
      else
        let v := if s then Z.neg m else Z.pos m in
        let d := (2 ^ (- e))%Z in
        let cents := ((200 * v + d) / (2 * d))%Z in
        if (0 <=? cents)%Z
        then (of_uint63 (Uint63.of_Z cents) / 100)%float
        else (- (of_uint63 (Uint63.of_Z (- cents)) / 100))%float
  | _ => x
  end.

(** A string is blank when it holds white space only. *)
Fixpoint isBlank (s : string) : bool :=
  match s with
  | EmptyString => true
  | String c s' => isWhiteSpace c && isBlank s'
  end.

(** The vertical cursor [n] rows below [y]: [yPosition += 10], [n] times. *)
Definition cursorAfter (n : nat) (y : number) : number :=
  Nat.iter n (fun y => (y + 10)%float) y.

(** The text runs a call sequence draws, one per line. *)
Definition drawnLines (ops : list docOp) : list text :=
  flat_map (fun op =>
              match op with
              | Text t _ _ _ => [t]
              | TextLines lines _ _ => map (fun l => [Lit l]) lines
              | _ => []
              end) ops.

(** Characters of the literal chunks of a text run. *)
Definition literalLength (t : text) : nat :=
  list_sum (map (fun p => match p with Lit s => String.length s | _ => 0%nat end) t).

(** Does a drawing call lie at or above the vertical position [limit]? *)
Definition within (limit : number) (op : docOp) : bool :=
  match yOf op with
  | Some y => (y <=? limit)%float
  | None => true
  end.

Definition isTextLines (op : docOp) : bool :=
  match op with TextLines _ _ _ => true | _ => false end.

(** The calls that set a text style or draw one text run. *)
Definition isTextOrStyle (op : docOp) : bool :=
  match op with
  | Text _ _ _ _ | SetFontSize _ | SetTextColor _ => true
  | _ => false
  end.

(** A document with its embedded generation timestamps blanked. *)
Definition eraseTime (p : piece) : piece :=
  match p with
  | TimeValue _ => TimeValue 0
  | LocaleDate _ => LocaleDate 0
  | _ => p
  end.

Definition eraseTimestamps (ops : list docOp) : list docOp :=
  map (fun op =>
         match op with
         | Text t x y a => Text (map eraseTime t) x y a
         | _ => op
         end) ops.

(** How [updateItem id e] changes one item when [e] sets the quantity or the
    rate: an item with another id is left as it is; one with the id [id]
    takes the new value and its amount is their product. *)
Definition edited (id : string) (e : edit) (old new : InvoiceItem.t) : Prop :=
  if String.eqb (InvoiceItem.id old) id then
    InvoiceItem.id new = InvoiceItem.id old
    /\ InvoiceItem.description new = InvoiceItem.description old
    /\ match e with
       | SetQuantity value =>
           InvoiceItem.quantity new = value
           /\ InvoiceItem.rate new = InvoiceItem.rate old
       | SetRate value =>
           InvoiceItem.quantity new = InvoiceItem.quantity old
           /\ InvoiceItem.rate new = value
       | _ => False
       end
    /\ InvoiceItem.amount new
       = (InvoiceItem.quantity new * InvoiceItem.rate new)%float
  else new = old.

(** The rows of the item table as a single cursor places them: the row of
    the item at index [i] lies [i] steps of 10 below [y]. *)
Fixpoint rowsFrom (i : nat) (y : number) (items : list InvoiceItem.t)
  : list docOp :=
  match items with
  | [] => []
  | item :: rest => itemRow item (cursorAfter i y) ++ rowsFrom (S i) y rest
  end.

(** The same world with another clock. *)
Definition withClock (clock : nat -> Z) (ticks : nat) (w : EmailInvoice.World)
  : EmailInvoice.World :=
  EmailInvoice.mkWorld (EmailInvoice.formData w) (EmailInvoice.isGenerating w)
    (EmailInvoice.isSending w) (EmailInvoice.toasts w) (EmailInvoice.console w)
    (EmailInvoice.outbox w) clock ticks.

(** The form is accepted when no name or description is blank, hours and
    rate are not [<= 0], and the e-mail address holds an at sign. *)
Definition accepts (d : EmailInvoice.InvoiceData) : bool :=
  negb (isBlank (EmailInvoice.clientName d))
  && negb (isBlank (EmailInvoice.serviceDescription d))
  && negb (EmailInvoice.totalHours d <=? 0)%float
  && negb (EmailInvoice.hourlyRate d <=? 0)%float
  && negb (isBlank (EmailInvoice.userName d))
  && includes (EmailInvoice.userEmail d) "@".

(** The same world with one more toast shown. *)
Definition withToast (t : Toast) (w : EmailInvoice.World) : EmailInvoice.World :=
  EmailInvoice.mkWorld (EmailInvoice.formData w) (EmailInvoice.isGenerating w)
    (EmailInvoice.isSending w) (EmailInvoice.toasts w ++ [t])
    (EmailInvoice.console w) (EmailInvoice.outbox w) (EmailInvoice.clock w)
    (EmailInvoice.ticks w).

(** The document [generatePDF] builds in a world. *)
Definition pdfOf (b : EmailInvoice.Backend) (w : EmailInvoice.World)
  : list docOp :=
  match EmailInvoice.generatePDF b w with
  | (EmailInvoice.Ok ops, _) => ops
  | (EmailInvoice.Throw _, _) => []
  end.

(** The request [handleGenerateAndSend] sends from a world: the document
    takes the first two readings of the clock, the subject and the name of
    the attachment the next two. *)
Definition requestOf (b : EmailInvoice.Backend) (w : EmailInvoice.World)
  : EmailInvoice.EmailRequest :=
  EmailInvoice.emailRequest (EmailInvoice.formData w) (pdfOf b w)
    (EmailInvoice.clock w (S (S (EmailInvoice.ticks w))))
    (EmailInvoice.clock w (S (S (S (EmailInvoice.ticks w))))).

(** The value thrown inside the handler when the service answers [r]: the
    reason of a rejection, or an [Error] made of a truthy [error]. *)
Definition failure (r : EmailInvoice.SendResult) : option EmailInvoice.exn :=
  match r with
  | EmailInvoice.Rejected reason => Some (EmailInvoice.Reason reason)
  | EmailInvoice.Resolved (Some message) =>
      if truthy message then Some (EmailInvoice.ErrorObject message) else None
  | EmailInvoice.Resolved None => None
  end.

(** The world a failed delivery leaves: the form as it was, both flags
    down, the two progress lines and the error on the console, the request
    in the outbox, the failure toast shown and four readings of the clock
    made. *)
Definition afterFailure (b : EmailInvoice.Backend) (e : EmailInvoice.exn)
  (w : EmailInvoice.World) : EmailInvoice.World :=
  EmailInvoice.mkWorld (EmailInvoice.formData w) false false
    (EmailInvoice.toasts w ++ [EmailInvoice.failureToast])
    (EmailInvoice.console w
     ++ [ EmailInvoice.ConsoleLog "Generating PDF invoice...";
          EmailInvoice.ConsoleLog "Sending email with invoice...";
          EmailInvoice.ConsoleError "Error generating or sending invoice:" e ])
    (EmailInvoice.outbox w ++ [requestOf b w])
    (EmailInvoice.clock w)
    (S (S (S (S (EmailInvoice.ticks w))))).

(** The world a delivery leaves when nothing is thrown: as after a failure,
    but for the form, which is reset, the success toast, and the console,
    which holds no error. *)
Definition afterSuccess (b : EmailInvoice.Backend) (w : EmailInvoice.World)
  : EmailInvoice.World :=
  EmailInvoice.mkWorld EmailInvoice.emptyForm false false
    (EmailInvoice.toasts w ++ [EmailInvoice.successToast])
    (EmailInvoice.console w
     ++ [ EmailInvoice.ConsoleLog "Generating PDF invoice...";
          EmailInvoice.ConsoleLog "Sending email with invoice..." ])
    (EmailInvoice.outbox w ++ [requestOf b w])
    (EmailInvoice.clock w)
    (S (S (S (S (EmailInvoice.ticks w))))).

(** The toast of a failed validation. *)
Definition validationToast (description : string) : Toast :=
  mkToast "Validation Error" description (Some "destructive").

End Spec.

(** ** Sample inputs *)

Module Sample.
Import JS PDF.
Local Open Scope string_scope.
Local Open Scope list_scope.

(** The first render's item with its rate edited to 0.1. *)
Definition tenCents : list InvoiceGenerator.InvoiceItem.t :=
  InvoiceGenerator.updateItem "1" (InvoiceGenerator.SetRate 0.1%float)
    InvoiceGenerator.initialItems.

(** Thirty items: the first render's and twenty-nine added one
    millisecond apart. *)
Definition thirtyItems : list InvoiceGenerator.InvoiceItem.t :=
  InvoiceGenerator.itemsAfter
    (map (fun k => InvoiceGenerator.AddItem (Z.of_nat k)) (seq 1000 29)).

Definition client : InvoiceGenerator.ClientInfo.t :=
  InvoiceGenerator.ClientInfo.mk "Acme Corp" "billing@acme.example"
    (Some "Acme") None None.

Definition invoice (number : string)
  (items : list InvoiceGenerator.InvoiceItem.t) (notes : string)
  : InvoiceGenerator.State :=
  InvoiceGenerator.mkState number "2024-01-15" "2024-02-15" client items notes
    None.

(** Five hundred characters: fifty times a nine-letter word and a space. *)
Definition notes500 : string :=
  String.concat "" (repeat "invoicing " 50).

(** Two clicks on "Add Item" within one millisecond, then the two removals
    the form allows. *)
Definition sameMillisecond : list InvoiceGenerator.event :=
  [ InvoiceGenerator.AddItem 1700000000000;
    InvoiceGenerator.AddItem 1700000000000;
    InvoiceGenerator.RemoveItem "1";
    InvoiceGenerator.RemoveItem "1700000000000" ].

Definition form : EmailInvoice.InvoiceData :=
  EmailInvoice.mkInvoiceData "Acme Corp" "Consulting in March" 10%float 50%float
    "Jo Doe" "jo@doe.example".

(** The form with a client name of one space. *)
Definition blankClientForm : EmailInvoice.InvoiceData :=
  EmailInvoice.mkInvoiceData " " "Consulting in March" 10%float 50%float
    "Jo Doe" "jo@doe.example".

Definition world (formData : EmailInvoice.InvoiceData) : EmailInvoice.World :=
  EmailInvoice.mkWorld formData false false [] [] []
    (fun n => (1700000000000 + Z.of_nat n)%Z) 0.

(** A backend with an A4 page that leaves every text on one line. *)
Definition backend : EmailInvoice.Backend :=
  EmailInvoice.mkBackend a4Width (fun _ s _ => [s]).

(** A mail service that answers with an error. *)
Definition failingService (_ : EmailInvoice.EmailRequest)
  : EmailInvoice.SendResult :=
  EmailInvoice.Resolved (Some "SMTP 554").

End Sample.

(** ** Numbers in Boolean positions *)

Module JSNumber.
Import JS.
Local Open Scope float_scope.

(** ToBoolean on a number: every number but 0, -0 and NaN is truthy. *)
Definition truthy (n : number) : bool := negb (n =? 0) && (n =? n).

(** [n || d] on numbers. *)
Definition orElse (n d : number) : number := if truthy n then n else d.

(** [`${n}`] for a length or a count [n]. *)
Definition countToString (n : nat) : string := timeToString (Z.of_nat n).

End JSNumber.

(** ** The expense matcher ([ExpenseReceiptMatcher]) *)

Module ExpenseReceiptMatcher.
Import JS.
Local Open Scope string_scope.
Local Open Scope list_scope.
Local Open Scope float_scope.

(** What the component reads of an uploaded [File]. *)
Record File : Type := mkFile { name : string; type : string }.

Module ExpenseItem.
Record t : Type := mk
  { id : string;
    description : string;
    amount : number;
    category : string;
    date : string;
    confidence : number }.
End ExpenseItem.

(** A [Set<string>]: its elements in insertion order, none twice. *)
Module StringSet.
Definition t : Type := list string.
Definition has (s : t) (x : string) : bool := existsb (String.eqb x) s.
Definition add (s : t) (x : string) : t := if has s x then s else s ++ [x].
Definition delete (s : t) (x : string) : t :=
  filter (fun y => negb (String.eqb y x)) s.
Definition size (s : t) : nat := List.length s.
End StringSet.

Record State : Type := mkState
  { isProcessing : bool;
    uploadedFiles : list File;
    extractedExpenses : list ExpenseItem.t;
    selectedItems : StringSet.t }.

Definition initialState : State := mkState false [] [] [].

(** [file.type.includes('image') || file.type.includes('pdf')] *)
Definition isValidFile (file : File) : bool :=
  includes (type file) "image" || includes (type file) "pdf".

(** [handleFileUpload]; [files] is [Array.from(event.target.files || [])]. *)
Definition handleFileUpload (files : list File) (st : State)
  : State * list Toast :=
  let validFiles := filter isValidFile files in
  (mkState (isProcessing st) (uploadedFiles st ++ validFiles)
     (extractedExpenses st) (selectedItems st),
   if negb (List.length validFiles =? List.length files)%nat
   then [ mkToast "Invalid Files" "Only image and PDF files are supported."
            (Some "destructive") ]
   else []).

Definition mockExpenses : list ExpenseItem.t :=
  [ ExpenseItem.mk "1" "Office Supplies - Printer Paper" 24.99
      "Office Supplies" "2024-01-15" 0.95;
    ExpenseItem.mk "2" "Business Lunch - Restaurant ABC" 87.50
      "Meals & Entertainment" "2024-01-16" 0.88;
    ExpenseItem.mk "3" "Travel - Taxi Fare" 15.30
      "Transportation" "2024-01-16" 0.92;
    ExpenseItem.mk "4" "Software License - Design Tool" 199.00
      "Software" "2024-01-17" 0.97 ].

(** [processReceipts] up to its [await]: the flag tells whether the timer
    was started. *)
Definition processReceipts (st : State) : State * list Toast * bool :=
  if (List.length (uploadedFiles st) =? 0)%nat then
    (st,
     [ mkToast "No Files" "Please upload receipt files first."
         (Some "destructive") ],
     false)
  else
    (mkState true (uploadedFiles st) (extractedExpenses st) (selectedItems st),
     [], true).

(** [processReceipts] from its [await] on, three seconds later. *)
Definition processReceiptsResume (st : State) : State * list Toast :=
  (mkState false (uploadedFiles st) mockExpenses (selectedItems st),
   [ mkToast "Processing Complete!"
       ("Found " ++ JSNumber.countToString (List.length mockExpenses)
        ++ " billable items from your receipts.")
       None ]).

Definition toggleItemSelection (itemId : string) (st : State) : State :=
  let newSet := selectedItems st in
  mkState (isProcessing st) (uploadedFiles st) (extractedExpenses st)
    (if StringSet.has newSet itemId
     then StringSet.delete newSet itemId
     else StringSet.add newSet itemId).

(** [extractedExpenses.filter(item => selectedItems.has(item.id))] *)
Definition selectedExpenses (st : State) : list ExpenseItem.t :=
  filter (fun item => StringSet.has (selectedItems st) (ExpenseItem.id item))
    (extractedExpenses st).

(** [addSelectedToInvoice]: the argument of [onAddToInvoice] when it is
    called, the next state and the toast shown. *)
Definition addSelectedToInvoice (st : State)
  : option (list ExpenseItem.t) * State * list Toast :=
  let selectedExpenses := selectedExpenses st in
  if (List.length selectedExpenses =? 0)%nat then
    (None, st,
     [ mkToast "No Items Selected"
         "Please select items to add to your invoice." (Some "destructive") ])
  else
    (Some selectedExpenses,
     mkState (isProcessing st) [] [] [],
     [ mkToast "Items Added!"
         (JSNumber.countToString (List.length selectedExpenses)
          ++ " items added to your invoice.")
         None ]).

(** [prev.filter((_, i) => i !== index)] *)
Fixpoint filterIndex {A : Type} (index : nat) (i : nat) (l : list A) : list A :=
  match l with
  | [] => []
  | x :: rest =>
      if (i =? index)%nat then filterIndex index (S i) rest
      else x :: filterIndex index (S i) rest
  end.

Definition removeFile (index : nat) (st : State) : State :=
  mkState (isProcessing st) (filterIndex index 0 (uploadedFiles st))
    (extractedExpenses st) (selectedItems st).

(** A click on the i-th expense shown: [toggleItemSelection(item.id)] for
    the i-th element of [extractedExpenses]; there is nothing to click
    beyond the list. *)
Definition clickExpense (i : nat) (st : State) : State :=
  match nth_error (extractedExpenses st) i with
  | Some item => toggleItemSelection (ExpenseItem.id item) st
  | None => st
  end.

(** The component with its running timers. *)
Record Page : Type := mkPage { state : State; timers : nat }.

Inductive event : Type :=
| Upload (files : list File)
| RemoveFile (index : nat)
| ProcessReceipts
| TimerFires
| ClickExpense (i : nat)
| AddSelectedToInvoice.

Definition handle (p : Page) (ev : event) : Page :=
  match ev with
  | Upload files => mkPage (fst (handleFileUpload files (state p))) (timers p)
  | RemoveFile index => mkPage (removeFile index (state p)) (timers p)
  | ProcessReceipts =>
      let '(st, _, started) := processReceipts (state p) in
      mkPage st (if started then S (timers p) else timers p)
  | TimerFires =>
      match timers p with
      | O => p
      | S n => mkPage (fst (processReceiptsResume (state p))) n
      end
  | ClickExpense i => mkPage (clickExpense i (state p)) (timers p)
  | AddSelectedToInvoice =>
      let '(_, st, _) := addSelectedToInvoice (state p) in
      mkPage st (timers p)
  end.

(** The page after a sequence of events, from the first render on. *)
Definition pageAfter (evs : list event) : Page :=
  fold_left handle evs (mkPage initialState 0).

End ExpenseReceiptMatcher.

(** ** The client enricher ([ClientInfoEnricher]) *)

Module ClientInfoEnricher.
Import JS.
Local Open Scope string_scope.
Local Open Scope list_scope.

Record EnrichedData : Type := mkEnrichedData
  { recentNews : option (list string);
    companyDescription : option string;
    keyPersons : option (list string) }.

Module ClientInfo.
Record t : Type := mk
  { name : string;
    email : string;
    company : option string;
    title : option string;
    phone : option string;
    website : option string;
    address : option string;
    linkedin : option string;
    industry : option string;
    companySize : option string;
    enrichedData : option EnrichedData }.
End ClientInfo.

Record State : Type := mkState
  { isSearching : bool;
    clientName : string;
    clientEmail : string;
    enrichedInfo : option ClientInfo.t }.

Definition initialState : State := mkState false "" "" None.

Definition setClientName (value : string) (st : State) : State :=
  mkState (isSearching st) value (clientEmail st) (enrichedInfo st).

Definition setClientEmail (value : string) (st : State) : State :=
  mkState (isSearching st) (clientName st) value (enrichedInfo st).

(** [enrichClientInfo] up to its [await]: the flag tells whether the timer
    was started. *)
Definition enrichClientInfo (st : State) : State * list Toast * bool :=
  if negb (truthy (trim (clientName st))) && negb (truthy (trim (clientEmail st)))
  then
    (st,
     [ mkToast "Missing Information"
         "Please provide either a client name or email address."
         (Some "destructive") ],
     false)
  else
    (mkState true (clientName st) (clientEmail st) (enrichedInfo st), [], true).

(** The canned result, with the name and the e-mail address of the render
    in which the search was started. *)
Definition mockEnrichedInfo (clientName clientEmail : string) : ClientInfo.t :=
  {| ClientInfo.name := or_default (Some clientName) "John Mitchell";
     ClientInfo.email := or_default (Some clientEmail) "john.mitchell@techcorp.com";
     ClientInfo.company := Some "TechCorp Solutions";
     ClientInfo.title := Some "Chief Technology Officer";
     ClientInfo.phone := Some "+1 (555) 123-4567";
     ClientInfo.website := Some "https://techcorp.com";
     ClientInfo.address := Some "123 Innovation Drive, San Francisco, CA 94105";
     ClientInfo.linkedin := Some "https://linkedin.com/in/johnmitchell";
     ClientInfo.industry := Some "Technology & Software";
     ClientInfo.companySize := Some "150-500 employees";
     ClientInfo.enrichedData :=
       Some
         {| recentNews :=
              Some [ "TechCorp Solutions announces $10M Series B funding";
                     "Company expands to European market";
                     "Named in top 50 fastest-growing tech companies" ];
            companyDescription :=
              Some "Leading provider of enterprise software solutions specializing in cloud infrastructure and data analytics.";
            keyPersons :=
              Some [ "Sarah Johnson - CEO";
                     "John Mitchell - CTO";
                     "Mike Chen - VP of Sales" ] |} |}.

(** [enrichClientInfo] from its [await] on; [searchedName] and
    [searchedEmail] are the values of the render that started the search. *)
Definition enrichClientInfoResume (searchedName searchedEmail : string)
  (st : State) : State * list Toast :=
  (mkState false (clientName st) (clientEmail st)
     (Some (mockEnrichedInfo searchedName searchedEmail)),
   [ mkToast "Client Info Found!"
       "Successfully enriched client information from public sources." None ]).

(** [applyClientInfo]: the argument of [onClientInfoUpdate] when it is
    called, and the toast shown. *)
Definition applyClientInfo (st : State) : option ClientInfo.t * list Toast :=
  match enrichedInfo st with
  | None => (None, [])
  | Some info =>
      (Some info,
       [ mkToast "Client Info Applied!"
           "Client information has been added to your invoice." None ])
  end.

Definition clearSearch (st : State) : State :=
  mkState (isSearching st) "" "" None.

(** A search run to its end with no other event in between. *)
Definition search (st : State) : State * list Toast :=
  let '(st1, toasts, started) := enrichClientInfo st in
  if started then enrichClientInfoResume (clientName st) (clientEmail st) st1
  else (st1, toasts).

End ClientInfoEnricher.

(** ** The dispute resolver ([DisputeResolverBot]) *)

Module DisputeResolverBot.
Import JS PDF.
Local Open Scope string_scope.
Local Open Scope list_scope.
Local Open Scope float_scope.

Record DisputeContext : Type := mkDisputeContext
  { invoiceNumber : string;
    clientName : string;
    amount : number;
    daysOverdue : number;
    previousContacts : number;
    disputeReason : option string }.

(** ['reminder' | 'dispute' | 'final-notice'] *)
Inductive MessageType : Type := Reminder | Dispute | FinalNotice.

(** ['professional' | 'firm' | 'friendly'] *)
Inductive Tone : Type := Professional | Firm | Friendly.

Definition typeName (t : MessageType) : string :=
  match t with
  | Reminder => "reminder"
  | Dispute => "dispute"
  | FinalNotice => "final-notice"
  end.

(** Of the body of a message only the values interpolated into its fixed
    wording are kept, in their order. *)
Record GeneratedMessage : Type := mkGeneratedMessage
  { id : string;
    type : MessageType;
    tone : Tone;
    subject : string;
    content : text;
    followUpDays : number }.

Record State : Type := mkState
  { isGenerating : bool;
    context : DisputeContext;
    messageType : MessageType;
    selectedTone : Tone;                  (* the state variable [tone] *)
    generatedMessages : list GeneratedMessage;
    selectedMessage : option string }.

Definition defaultContext : DisputeContext :=
  mkDisputeContext "" "" 0 0 0 None.

(** The state of the first render; [invoiceContext] is the property the
    page passes, if any. *)
Definition initialState (invoiceContext : option DisputeContext) : State :=
  mkState false
    (match invoiceContext with Some c => c | None => defaultContext end)
    Reminder Professional [] None.

(** The pair [(field, value)] of [updateContext], with the value typed by
    the field it is stored in. *)
Inductive edit : Type :=
| SetInvoiceNumber (value : string)
| SetClientName (value : string)
| SetAmount (value : number)
| SetDaysOverdue (value : number)
| SetPreviousContacts (value : number)
| SetDisputeReason (value : string).

Definition updateContext (e : edit) (st : State) : State :=
  let prev := context st in
  mkState (isGenerating st)
    (match e with
     | SetInvoiceNumber v =>
         mkDisputeContext v (clientName prev) (amount prev) (daysOverdue prev)
           (previousContacts prev) (disputeReason prev)
     | SetClientName v =>
         mkDisputeContext (invoiceNumber prev) v (amount prev) (daysOverdue prev)
           (previousContacts prev) (disputeReason prev)
     | SetAmount v =>
         mkDisputeContext (invoiceNumber prev) (clientName prev) v
           (daysOverdue prev) (previousContacts prev) (disputeReason prev)
     | SetDaysOverdue v =>
         mkDisputeContext (invoiceNumber prev) (clientName prev) (amount prev) v
           (previousContacts prev) (disputeReason prev)
     | SetPreviousContacts v =>
         mkDisputeContext (invoiceNumber prev) (clientName prev) (amount prev)
           (daysOverdue prev) v (disputeReason prev)
     | SetDisputeReason v =>
         mkDisputeContext (invoiceNumber prev) (clientName prev) (amount prev)
           (daysOverdue prev) (previousContacts prev) (Some v)
     end)
    (messageType st) (selectedTone st) (generatedMessages st)
    (selectedMessage st).

Definition setMessageType (value : MessageType) (st : State) : State :=
  mkState (isGenerating st) (context st) value (selectedTone st)
    (generatedMessages st) (selectedMessage st).

Definition setTone (value : Tone) (st : State) : State :=
  mkState (isGenerating st) (context st) (messageType st) value
    (generatedMessages st) (selectedMessage st).

(** [!context.invoiceNumber || !context.clientName || context.amount <= 0] *)
Definition missingInformation (c : DisputeContext) : bool :=
  negb (truthy (invoiceNumber c)) || negb (truthy (clientName c))
  || (amount c <=? 0).

(** [generateMessages] up to its [await]: the flag tells whether the timer
    was started. *)
Definition generateMessages (st : State) : State * list Toast * bool :=
  if missingInformation (context st) then
    (st,
     [ mkToast "Missing Information"
         "Please fill in invoice number, client name, and amount."
         (Some "destructive") ],
     false)
  else
    (mkState true (context st) (messageType st) (selectedTone st)
       (generatedMessages st) (selectedMessage st),
     [], true).

(** The canned messages, by type and tone. *)
Definition mockMessages (context : DisputeContext) (messageType : MessageType)
  (tone : Tone) : list GeneratedMessage :=
  match messageType with
  | Reminder =>
      [ mkGeneratedMessage "1" Reminder tone
          ("Payment Reminder: Invoice " ++ invoiceNumber context)
          [ Lit (clientName context);
            Lit (invoiceNumber context);
            NumToFixed2 (amount context);
            NumToString (daysOverdue context) ]
          7 ]
      ++ match tone with
         | Firm =>
             [ mkGeneratedMessage "2" Reminder Firm
                 ("Urgent: Overdue Payment Required - Invoice "
                  ++ invoiceNumber context)
                 [ Lit (clientName context);
                   Lit (invoiceNumber context);
                   NumToFixed2 (amount context);
                   NumToString (daysOverdue context);
                   NumToString (previousContacts context) ]
                 5 ]
         | _ => []
         end
  | Dispute =>
      [ mkGeneratedMessage "3" Dispute tone
          ("Re: Dispute Resolution - Invoice " ++ invoiceNumber context)
          ([ Lit (clientName context);
             Lit (invoiceNumber context) ]
           ++ match disputeReason context with
              | Some reason => if truthy reason then [Lit reason] else []
              | None => []
              end)
          3 ]
  | FinalNotice =>
      [ mkGeneratedMessage "4" FinalNotice Firm
          ("FINAL NOTICE: Invoice " ++ invoiceNumber context
           ++ " - Immediate Action Required")
          [ Lit (clientName context);
            Lit (invoiceNumber context);
            NumToFixed2 (amount context);
            NumToString (previousContacts context);
            NumToString (daysOverdue context) ]
          2 ]
  end.

(** [generateMessages] from its [await] on; the three arguments are the
    values of the render that started the generation. *)
Definition generateMessagesResume (context : DisputeContext)
  (messageType : MessageType) (tone : Tone) (st : State)
  : State * list Toast :=
  let mockMessages := mockMessages context messageType tone in
  (mkState false (DisputeResolverBot.context st)
     (DisputeResolverBot.messageType st) (selectedTone st) mockMessages
     (selectedMessage st),
   [ mkToast "Messages Generated!"
       ("Created " ++ JSNumber.countToString (List.length mockMessages)
        ++ " professional " ++ typeName messageType ++ " message(s).")
       None ]).

(** A generation run to its end with no other event in between. *)
Definition generate (st : State) : State * list Toast :=
  let '(st1, toasts, started) := generateMessages st in
  if started
  then generateMessagesResume (context st) (messageType st) (selectedTone st) st1
  else (st1, toasts).

(** [sendMessage]: a toast, and nothing else. *)
Definition sendMessage (message : GeneratedMessage) (st : State)
  : State * list Toast :=
  (st,
   [ mkToast "Message Sent!"
       (typeName (type message) ++ " message sent to "
        ++ clientName (context st) ++ ".")
       None ]).

End DisputeResolverBot.

(** ** The branding themes ([AIBrandingThemes]) *)

Module AIBrandingThemes.
Import JS.
Local Open Scope string_scope.
Local Open Scope list_scope.

(** What the component reads of an uploaded [File]. *)
Record File : Type := mkFile { fileName : string; type : string }.

Module BrandTheme.
Record Colors : Type := mkColors
  { primary : string; secondary : string; accent : string }.
Record Fonts : Type := mkFonts
  { heading : string; body : string }.
Record t : Type := mk
  { id : string;
    name : string;
    colors : Colors;
    fonts : Fonts;
    preview : string }.
End BrandTheme.

Record State : Type := mkState
  { isGenerating : bool;
    brandDescription : string;
    logoFile : option File;
    generatedThemes : list BrandTheme.t;
    selectedTheme : option string }.

Definition initialState : State := mkState false "" None [] None.

Definition setBrandDescription (value : string) (st : State) : State :=
  mkState (isGenerating st) value (logoFile st) (generatedThemes st)
    (selectedTheme st).

(** [handleLogoUpload]; [file] is [event.target.files?.[0]]. *)
Definition handleLogoUpload (file : option File) (st : State)
  : State * list Toast :=
  match file with
  | Some file =>
      if negb (includes (type file) "image") then
        (st,
         [ mkToast "Invalid File"
             "Please upload an image file for your logo."
             (Some "destructive") ])
      else
        (mkState (isGenerating st) (brandDescription st) (Some file)
           (generatedThemes st) (selectedTheme st),
         [])
  | None => (st, [])
  end.

(** [generateThemes] up to its [await]: the flag tells whether the timer
    was started. *)
Definition generateThemes (st : State) : State * list Toast * bool :=
  if negb (truthy (trim (brandDescription st)))
     && match logoFile st with Some _ => false | None => true end
  then
    (st,
     [ mkToast "Missing Information"
         "Please provide a brand description or upload a logo."
         (Some "destructive") ],
     false)
  else
    (mkState true (brandDescription st) (logoFile st) (generatedThemes st)
       (selectedTheme st),
     [], true).

Definition mockThemes : list BrandTheme.t :=
  [ BrandTheme.mk "1" "Professional Blue"
      (BrandTheme.mkColors "#2563eb" "#64748b" "#f59e0b")
      (BrandTheme.mkFonts "Inter" "Open Sans")
      "Modern and trustworthy with clean lines";
    BrandTheme.mk "2" "Creative Gradient"
      (BrandTheme.mkColors "#7c3aed" "#ec4899" "#06b6d4")
      (BrandTheme.mkFonts "Poppins" "Roboto")
      "Bold and innovative with gradient accents";
    BrandTheme.mk "3" "Elegant Minimal"
      (BrandTheme.mkColors "#1f2937" "#6b7280" "#10b981")
      (BrandTheme.mkFonts "Playfair Display" "Source Sans Pro")
      "Sophisticated and minimal design approach";
    BrandTheme.mk "4" "Tech Forward"
      (BrandTheme.mkColors "#0ea5e9" "#334155" "#f97316")
      (BrandTheme.mkFonts "JetBrains Mono" "Inter")
      "Tech-savvy with modern typography" ].

(** [generateThemes] from its [await] on, four seconds later. *)
Definition generateThemesResume (st : State) : State * list Toast :=
  (mkState false (brandDescription st) (logoFile st) mockThemes
     (selectedTheme st),
   [ mkToast "Themes Generated!"
       ("Created " ++ JSNumber.countToString (List.length mockThemes)
        ++ " custom themes based on your brand.")
       None ]).

(** A string between two double quotes (code unit 34), as the toast of
    [applyTheme] shows the name of the theme. *)
Definition quoted (s : string) : string :=
  String (ascii_of_nat 34) (s ++ String (ascii_of_nat 34) "").

(** [applyTheme]: the next state, the argument of [onApplyTheme] and the
    toast shown. *)
Definition applyTheme (theme : BrandTheme.t) (st : State)
  : State * BrandTheme.t * list Toast :=
  (mkState (isGenerating st) (brandDescription st) (logoFile st)
     (generatedThemes st) (Some (BrandTheme.id theme)),
   theme,
   [ mkToast "Theme Applied!"
       ("Your invoice template now uses the " ++ quoted (BrandTheme.name theme)
        ++ " theme.")
       None ]).




End AIBrandingThemes.

(** ** The invoice page: the handlers around the themed generator *)

Module InvoiceForm.
Import JS PDF InvoiceGenerator.
Local Open Scope string_scope.
Local Open Scope list_scope.
Local Open Scope float_scope.

Definition setItems (items : list InvoiceItem.t) (st : State) : State :=
  mkState (invoiceNumber st) (invoiceDate st) (dueDate st) (clientInfo st)
    items (notes st) (appliedTheme st).

Definition setClientInfo (info : ClientInfo.t) (st : State) : State :=
  mkState (invoiceNumber st) (invoiceDate st) (dueDate st) info (items st)
    (notes st) (appliedTheme st).

Definition setAppliedTheme (theme : option BrandTheme.t) (st : State) : State :=
  mkState (invoiceNumber st) (invoiceDate st) (dueDate st) (clientInfo st)
    (items st) (notes st) theme.

(** The quantity field's [onChange]:
    [updateItem(item.id, 'quantity', parseInt(e.target.value) || 1)];
    [parsed] is the value of [parseInt(e.target.value)]. *)
Definition onQuantityChange (id : string) (parsed : number) (st : State)
  : State :=
  setItems (updateItem id (SetQuantity (JSNumber.orElse parsed 1)) (items st)) st.

(** The rate field's [onChange]:
    [updateItem(item.id, 'rate', parseFloat(e.target.value) || 0)];
    [parsed] is the value of [parseFloat(e.target.value)]. *)
Definition onRateChange (id : string) (parsed : number) (st : State) : State :=
  setItems (updateItem id (SetRate (JSNumber.orElse parsed 0)) (items st)) st.

(** The description field's [onChange]. *)
Definition onDescriptionChange (id : string) (value : string) (st : State)
  : State :=
  setItems (updateItem id (SetDescription value) (items st)) st.

(** The trash button of a row: [disabled={items.length === 1}]. *)
Definition removeDisabled (st : State) : bool :=
  (List.length (items st) =? 1)%nat.

(** What the page keeps of the enricher's client: the fields of its own
    [ClientInfo]. *)
Definition ofEnrichedClient (info : ClientInfoEnricher.ClientInfo.t)
  : ClientInfo.t :=
  ClientInfo.mk (ClientInfoEnricher.ClientInfo.name info)
    (ClientInfoEnricher.ClientInfo.email info)
    (ClientInfoEnricher.ClientInfo.company info)
    (ClientInfoEnricher.ClientInfo.address info)
    (ClientInfoEnricher.ClientInfo.phone info).

(** [handleClientInfoUpdate], as the enricher calls it. *)
Definition handleClientInfoUpdate (info : ClientInfoEnricher.ClientInfo.t)
  (st : State) : State :=
  setClientInfo (ofEnrichedClient info) st.

(** What the page keeps of a generated theme: the fields of its own
    [BrandTheme]. *)
Definition ofGeneratedTheme (theme : AIBrandingThemes.BrandTheme.t)
  : BrandTheme.t :=
  BrandTheme.mk (AIBrandingThemes.BrandTheme.id theme)
    (AIBrandingThemes.BrandTheme.name theme)
    (BrandTheme.mkColors
       (AIBrandingThemes.BrandTheme.primary
          (AIBrandingThemes.BrandTheme.colors theme))
       (AIBrandingThemes.BrandTheme.secondary
          (AIBrandingThemes.BrandTheme.colors theme))
       (AIBrandingThemes.BrandTheme.accent
          (AIBrandingThemes.BrandTheme.colors theme)))
    (BrandTheme.mkFonts
       (AIBrandingThemes.BrandTheme.heading
          (AIBrandingThemes.BrandTheme.fonts theme))
       (AIBrandingThemes.BrandTheme.body
          (AIBrandingThemes.BrandTheme.fonts theme))).

(** [handleThemeApply]: the next state and the custom properties set on the
    document element, as pairs of a name and a value. *)
Definition handleThemeApply (theme : BrandTheme.t) (st : State)
  : State * list (string * string) :=
  (setAppliedTheme (Some theme) st,
   [ ("--invoice-primary", BrandTheme.primary (BrandTheme.colors theme));
     ("--invoice-secondary", BrandTheme.secondary (BrandTheme.colors theme));
     ("--invoice-accent", BrandTheme.accent (BrandTheme.colors theme)) ]).

(** [handleExpenseItemsAdd], as the expense matcher calls it. *)
Definition onAddToInvoice (stamp : nat -> string)
  (expenseItems : list ExpenseReceiptMatcher.ExpenseItem.t) (st : State)
  : State :=
  setItems
    (handleExpenseItemsAdd stamp
       (map (fun e =>
               ExpenseItem.mk (ExpenseReceiptMatcher.ExpenseItem.description e)
                 (ExpenseReceiptMatcher.ExpenseItem.amount e))
          expenseItems)
       (items st))
    st.

(** The [invoiceContext] the page passes to the dispute resolver. *)
Definition invoiceContext (st : State) : DisputeResolverBot.DisputeContext :=
  DisputeResolverBot.mkDisputeContext (invoiceNumber st)
    (ClientInfo.name (clientInfo st)) (total (items st)) 0 0 None.

End InvoiceForm.

(** ** The mailing form: its field handlers *)

Module EmailForm.
Import JS EmailInvoice.
Local Open Scope string_scope.
Local Open Scope list_scope.
Local Open Scope float_scope.

(** The pair [(field, value)] of [handleInputChange], with the value typed
    by the field it is stored in. *)
Inductive edit : Type :=
| SetClientName (value : string)
| SetServiceDescription (value : string)
| SetTotalHours (value : number)
| SetHourlyRate (value : number)
| SetUserName (value : string)
| SetUserEmail (value : string).

(** [{ ...prev, [field]: value }] *)
Definition assign (prev : InvoiceData) (e : edit) : InvoiceData :=
  match e with
  | SetClientName v =>
      mkInvoiceData v (serviceDescription prev) (totalHours prev)
        (hourlyRate prev) (userName prev) (userEmail prev)
  | SetServiceDescription v =>
      mkInvoiceData (clientName prev) v (totalHours prev) (hourlyRate prev)
        (userName prev) (userEmail prev)
  | SetTotalHours v =>
      mkInvoiceData (clientName prev) (serviceDescription prev) v
        (hourlyRate prev) (userName prev) (userEmail prev)
  | SetHourlyRate v =>
      mkInvoiceData (clientName prev) (serviceDescription prev)
        (totalHours prev) v (userName prev) (userEmail prev)
  | SetUserName v =>
      mkInvoiceData (clientName prev) (serviceDescription prev)
        (totalHours prev) (hourlyRate prev) v (userEmail prev)
  | SetUserEmail v =>
      mkInvoiceData (clientName prev) (serviceDescription prev)
        (totalHours prev) (hourlyRate prev) (userName prev) v
  end.

Definition handleInputChange (e : edit) : M unit :=
  prev <- getFormData ;;
  setFormData (assign prev e).

(** The hours field's [onChange]:
    [handleInputChange('totalHours', parseFloat(e.target.value) || 0)];
    [parsed] is the value of [parseFloat(e.target.value)]. *)
Definition onTotalHoursChange (parsed : number) : M unit :=
  handleInputChange (SetTotalHours (JSNumber.orElse parsed 0)).

(** The rate field's [onChange], likewise. *)
Definition onHourlyRateChange (parsed : number) : M unit :=
  handleInputChange (SetHourlyRate (JSNumber.orElse parsed 0)).

(** The first render's world at a given clock. *)
Definition initialWorld (clock : nat -> Z) : World :=
  mkWorld emptyForm false false [] [] [] clock 0.

(** The button: [disabled={isGenerating || isSending}]. *)
Definition buttonDisabled (w : World) : bool := isGenerating w || isSending w.

End EmailForm.

(** ** Further notions the properties are stated with *)

Module Notions.
Import JS PDF.
Local Open Scope string_scope.
Local Open Scope list_scope.

(** The ids an event of the invoice form mints: one per added item. *)
Definition mintedIds (ev : InvoiceGenerator.event) : list string :=
  match ev with
  | InvoiceGenerator.AddItem now => [timeToString now]
  | InvoiceGenerator.ExpenseItemsAdd stamp expenseItems =>
      map stamp (seq 0 (List.length expenseItems))
  | _ => []
  end.

(** Does an event overwrite the id of an item? *)
Definition editsId (ev : InvoiceGenerator.event) : bool :=
  match ev with
  | InvoiceGenerator.UpdateItem _ (InvoiceGenerator.SetId _) => true
  | _ => false
  end.

(** Does a string hold a white space character? *)
Fixpoint hasWhiteSpace (s : string) : bool :=
  match s with
  | EmptyString => false
  | String c s' => isWhiteSpace c || hasWhiteSpace s'
  end.

(** The literal chunks of a text run hold no white space. *)
Definition noWhiteSpace (t : text) : Prop :=
  Forall (fun p => match p with
                   | Lit s => hasWhiteSpace s = false
                   | _ => True
                   end) t.

(** The world after a command. *)
Definition after {A : Type} (m : EmailInvoice.M A) (w : EmailInvoice.World)
  : EmailInvoice.World :=
  snd (m w).

(** The invariant of the expense matcher: only image and PDF files are
    kept; the selection holds no id twice and only ids of the expenses
    shown; the expenses shown are none or the canned four. *)
Definition matcherInvariant (st : ExpenseReceiptMatcher.State) : Prop :=
  forallb ExpenseReceiptMatcher.isValidFile
    (ExpenseReceiptMatcher.uploadedFiles st) = true
  /\ NoDup (ExpenseReceiptMatcher.selectedItems st)
  /\ incl (ExpenseReceiptMatcher.selectedItems st)
       (map ExpenseReceiptMatcher.ExpenseItem.id
          (ExpenseReceiptMatcher.extractedExpenses st))
  /\ (ExpenseReceiptMatcher.extractedExpenses st = []
      \/ ExpenseReceiptMatcher.extractedExpenses st
         = ExpenseReceiptMatcher.mockExpenses).

(** The invoice rows made of expenses: quantity 1, rate and amount the
    expense's amount, ids from [stamp] counted from [i]. *)
Fixpoint rowsOfExpenses (stamp : nat -> string) (i : nat)
  (expenses : list ExpenseReceiptMatcher.ExpenseItem.t)
  : list InvoiceGenerator.InvoiceItem.t :=
  match expenses with
  | [] => []
  | e :: rest =>
      InvoiceGenerator.InvoiceItem.mk (stamp i)
        (ExpenseReceiptMatcher.ExpenseItem.description e) 1%float
        (ExpenseReceiptMatcher.ExpenseItem.amount e)
        (ExpenseReceiptMatcher.ExpenseItem.amount e)
      :: rowsOfExpenses stamp (S i) rest
  end.

End Notions.

(** ** Further sample inputs *)

Module MoreSamples.
Import JS PDF.
Local Open Scope string_scope.
Local Open Scope list_scope.

Definition receipt : ExpenseReceiptMatcher.File :=
  ExpenseReceiptMatcher.mkFile "taxi.png" "image/png".

Definition spreadsheet : ExpenseReceiptMatcher.File :=
  ExpenseReceiptMatcher.mkFile "costs.csv" "text/csv".

(** A receipt and a spreadsheet uploaded, the receipts processed, the
    second and the fourth expense clicked. *)
Definition matcherSession : list ExpenseReceiptMatcher.event :=
  [ ExpenseReceiptMatcher.Upload [receipt; spreadsheet];
    ExpenseReceiptMatcher.ProcessReceipts;
    ExpenseReceiptMatcher.TimerFires;
    ExpenseReceiptMatcher.ClickExpense 3;
    ExpenseReceiptMatcher.ClickExpense 1 ].

(** Items added at three different milliseconds, one edited, two removed. *)
Definition threeMilliseconds : list InvoiceGenerator.event :=
  [ InvoiceGenerator.AddItem 1700000000000;
    InvoiceGenerator.AddItem 1700000000001;
    InvoiceGenerator.UpdateItem "1" (InvoiceGenerator.SetRate 12.5%float);
    InvoiceGenerator.RemoveItem "1";
    InvoiceGenerator.AddItem 1700000000002;
    InvoiceGenerator.RemoveItem "1700000000001" ].

(** Two fresh items and one with a description, none with an amount. *)
Definition unpricedItems : list InvoiceGenerator.InvoiceItem.t :=
  InvoiceGenerator.updateItem "1" (InvoiceGenerator.SetDescription "Logo")
    (InvoiceGenerator.itemsAfter
       [ InvoiceGenerator.AddItem 1700000000000;
         InvoiceGenerator.AddItem 1700000000001 ]).

(** A service that delivers. *)
Definition workingService (_ : EmailInvoice.EmailRequest)
  : EmailInvoice.SendResult :=
  EmailInvoice.Resolved None.

End MoreSamples.

(* ================================================================== *)
(** * Part II: properties *)
(* ================================================================== *)

(** Two numbers that the comparison [==] tells apart are different. *)
Lemma number_neq (x y : JS.number) :
  PrimFloat.eqb x y = false -> PrimFloat.eqb y y = true -> x <> y.
Proof.
  intros Hxy Hyy Heq. rewrite Heq in Hxy. congruence.
Qed.

(** ** Line items *)

Section LineItems.
Import JS InvoiceGenerator.
Local Open Scope list_scope.

(** The first render shows one item. *)
Lemma initialState_one_item (today : string) :
  List.length (items (initialState today)) = 1%nat.
Proof.
  reflexivity.
Qed.

Lemma addItem_length (now : Z) (items : list InvoiceItem.t) :
  List.length (addItem now items) = S (List.length items).
Proof.
  unfold addItem. rewrite length_app. simpl. lia.
Qed.

Lemma expenseRows_length (stamp : nat -> string) (expenses : list ExpenseItem.t) :
  forall i, List.length (expenseRows stamp i expenses) = List.length expenses.
Proof.
  induction expenses as [|e rest IH]; intro i; simpl; [reflexivity|].
  now rewrite IH.
Qed.

Lemma handleExpenseItemsAdd_length (stamp : nat -> string)
  (expenses : list ExpenseItem.t) (items : list InvoiceItem.t) :
  List.length (handleExpenseItemsAdd stamp expenses items)
  = (List.length items + List.length expenses)%nat.
Proof.
  unfold handleExpenseItemsAdd. now rewrite length_app, expenseRows_length.
Qed.

Lemma updateItem_length (id : string) (e : edit) (items : list InvoiceItem.t) :
  List.length (updateItem id e items) = List.length items.
Proof.
  unfold updateItem. apply length_map.
Qed.

Lemma removeItem_last (id : string) (item : InvoiceItem.t) :
  removeItem id [item] = [item].
Proof.
  reflexivity.
Qed.

(** What [removeItem] keeps: every item whose id differs from the one
    given, each as often as before. *)
Lemma removeItem_many (id : string) (items : list InvoiceItem.t) :
  (1 < List.length items)%nat ->
  removeItem id items
  = filter (fun item => negb (String.eqb (InvoiceItem.id item) id)) items.
Proof.
  intro Hlen. unfold removeItem.
  destruct (Nat.ltb_spec 1 (List.length items)); [reflexivity | lia].
Qed.

(** With an item of another id in the list, a removal leaves the list
    non-empty. *)
Lemma removeItem_keeps_other (id : string) (items : list InvoiceItem.t)
  (other : InvoiceItem.t) :
  In other items -> InvoiceItem.id other <> id -> removeItem id items <> [].
Proof.
  intros Hin Hid Hnil. unfold removeItem in Hnil.
  destruct (1 <? List.length items)%nat.
  - assert (Hother : In other
        (filter (fun item => negb (String.eqb (InvoiceItem.id item) id)) items)).
    { apply filter_In. split; [assumption|].
      apply negb_true_iff. now apply String.eqb_neq. }
    rewrite Hnil in Hother. contradiction.
  - subst items. contradiction.
Qed.

(** Of the handlers only [removeItem] can shorten the list. *)
Lemma handle_length (items : list InvoiceItem.t) (ev : event) :
  match ev with
  | RemoveItem _ => True
  | _ => (List.length items <= List.length (handle items ev))%nat
  end.
Proof.
  destruct ev as [now|id|id e|stamp expenses]; simpl; [|exact I| |].
  - rewrite addItem_length. lia.
  - rewrite updateItem_length. lia.
  - rewrite handleExpenseItemsAdd_length. lia.
Qed.

End LineItems.

Section Amounts.
Import JS InvoiceGenerator.
Local Open Scope list_scope.
Local Open Scope float_scope.

Lemma updateItem_edited (id : string) (e : edit) (items : list InvoiceItem.t) :
  isQuantityOrRate e = true ->
  Forall2 (Spec.edited id e) items (updateItem id e items).
Proof.
  intro He. unfold updateItem.
  induction items as [|item rest IH]; simpl; constructor; try assumption.
  unfold Spec.edited. rewrite He.
  destruct (String.eqb (InvoiceItem.id item) id); [|reflexivity].
  destruct e; simpl in *; try discriminate; repeat split; reflexivity.
Qed.

(** C4: after [updateItem] edits the quantity or the rate of the items with
    a given id, each of them carries the new value and an amount equal to
    its quantity times its rate (the product of the two numbers as the
    program computes it); the other items are untouched. *)
Theorem updateItem_amount_is_quantity_times_rate :
  forall (id : string) (value : number) (items : list InvoiceItem.t),
    Forall2 (Spec.edited id (SetQuantity value)) items
      (updateItem id (SetQuantity value) items)
    /\ Forall2 (Spec.edited id (SetRate value)) items
         (updateItem id (SetRate value) items)
    /\ Forall (fun item =>
                 InvoiceItem.id item = id ->
                 InvoiceItem.amount item
                 = InvoiceItem.quantity item * InvoiceItem.rate item)
         (updateItem id (SetQuantity value) items)
    /\ Forall (fun item =>
                 InvoiceItem.id item = id ->
                 InvoiceItem.amount item
                 = InvoiceItem.quantity item * InvoiceItem.rate item)
         (updateItem id (SetRate value) items).
Proof.
  intros id value items.
  split; [now apply updateItem_edited|].
  split; [now apply updateItem_edited|].
  split; unfold updateItem; apply Forall_forall; intros item Hin;
    apply in_map_iff in Hin; destruct Hin as [old [Hnew _]]; intro Hid;
    destruct (String.eqb_spec (InvoiceItem.id old) id) as [Heq|Hneq];
    subst item; simpl in *; try reflexivity; contradiction.
Qed.

(** The second item of a list is edited and the first keeps its stale
    fields: the sample run of the statement above. *)
Example updateItem_sample :
  updateItem "2" (SetQuantity 3)
    [ InvoiceItem.mk "1" "design" 2 50 100;
      InvoiceItem.mk "2" "hosting" 1 12.5 12.5 ]
  = [ InvoiceItem.mk "1" "design" 2 50 100;
      InvoiceItem.mk "2" "hosting" 3 12.5 37.5 ].
Proof.
  reflexivity.
Qed.

End Amounts.

Section ItemList.
Import JS InvoiceGenerator.
Local Open Scope string_scope.
Local Open Scope list_scope.

(** C10 (the program's behaviour where the claim fails): two items added
    within one millisecond share their id; once the first render's item is
    removed, removing by that id filters out both and the list is empty. *)
Theorem shared_id_empties_item_list :
  let afterAdds := itemsAfter [AddItem 1700000000000; AddItem 1700000000000] in
  map InvoiceItem.id afterAdds = ["1"; "1700000000000"; "1700000000000"]
  /\ map InvoiceItem.id (removeItem "1" afterAdds)
     = ["1700000000000"; "1700000000000"]
  /\ removeItem "1700000000000" (removeItem "1" afterAdds) = []
  /\ itemsAfter Sample.sameMillisecond = [].
Proof.
  vm_compute. repeat split; reflexivity.
Qed.

End ItemList.

(** ** Totals *)

Section Totals.
Import JS PDF InvoiceGenerator.
Local Open Scope string_scope.
Local Open Scope list_scope.
Local Open Scope float_scope.

Lemma reduce_amounts (items : list InvoiceItem.t) :
  forall sum : number,
    fold_left (fun sum item => sum + InvoiceItem.amount item) items sum
    = fold_left PrimFloat.add (map InvoiceItem.amount items) sum.
Proof.
  induction items as [|item rest IH]; intro sum; simpl; [reflexivity|].
  apply IH.
Qed.

Lemma subtotal_snoc (items : list InvoiceItem.t) (item : InvoiceItem.t) :
  subtotal (items ++ [item]) = subtotal items + InvoiceItem.amount item.
Proof.
  unfold subtotal. now rewrite fold_left_app.
Qed.

(** The totals block closes every document but for the notes. *)
Lemma document_ends_with_totals (st : State) :
  exists (before : list docOp) (yPosition : number),
    document st
    = before ++ totalsBlock (items st) yPosition
        ++ notesBlock (notes st) yPosition.
Proof.
  unfold document. cbv zeta.
  destruct (itemRows (items st) (100 + 10)) as [rows y].
  exists (titleAndDetails st ++ billTo (clientInfo st) ++ tableHeader 100 ++ rows),
    (y + 10).
  repeat rewrite <- app_assoc. reflexivity.
Qed.

(** C1 (amended): the subtotal is the sum of the amounts, added left to
    right from 0; the tax is the subtotal times 0.08, not rounded; the total
    is the subtotal plus that tax.  Two-decimal rounding happens only where
    the three values are printed, each through [toFixed(2)], in the totals
    block that every document carries. *)
Theorem totals_unrounded_until_printed :
  forall st : State,
    subtotal (items st)
    = fold_left PrimFloat.add (map InvoiceItem.amount (items st)) 0
    /\ tax (items st) = subtotal (items st) * 0.08
    /\ total (items st) = subtotal (items st) + tax (items st)
    /\ exists (before : list docOp) (yPosition : number),
         document st
         = before
           ++ [ drawText [Lit "Subtotal: $"; NumToFixed2 (subtotal (items st))]
                  140 yPosition;
                drawText [Lit "Tax: $"; NumToFixed2 (tax (items st))]
                  140 (yPosition + 10);
                SetFontSize 14;
                drawText [Lit "Total: $"; NumToFixed2 (total (items st))]
                  140 (yPosition + 20) ]
           ++ notesBlock (notes st) yPosition.
Proof.
  intro st.
  split; [apply reduce_amounts|].
  split; [reflexivity|].
  split; [reflexivity|].
  apply document_ends_with_totals.
Qed.

(** C1 (counterexample): one item of amount 0.1 has the tax 0.008, which
    is not its rounding to two decimals, 0.01. *)
Lemma tax_is_not_round2 :
  subtotal Sample.tenCents = 0.1
  /\ tax Sample.tenCents = 0.008
  /\ Spec.round2 (subtotal Sample.tenCents * 0.08) = 0.01
  /\ tax Sample.tenCents <> Spec.round2 (subtotal Sample.tenCents * 0.08).
Proof.
  repeat split; try (vm_compute; reflexivity).
  apply number_neq; vm_compute; reflexivity.
Qed.

End Totals.

(** ** Theme fallbacks *)

Section Theme.
Import JS InvoiceGenerator.
Local Open Scope string_scope.

(** [v || d] on a string that is there: the string unless it is empty. *)
Lemma or_default_some (s d : string) :
  or_default (Some s) d = if String.eqb s "" then d else s.
Proof.
  unfold or_default, truthy. now destruct (String.eqb s "").
Qed.

(** C5: each of the five theme values is resolved on its own: it is the
    applied theme's field when that field is set (not the empty string) and
    its built-in default otherwise; without a theme all five are the
    defaults; a theme that sets its primary colour only keeps the default
    fonts and the other two default colours. *)
Theorem theme_resolved_field_by_field :
  (primaryColor None = "#2563eb"
   /\ secondaryColor None = "#1f2937"
   /\ accentColor None = "#f59e0b"
   /\ headingFont None = "inherit"
   /\ bodyFont None = "inherit")
  /\ (forall t : BrandTheme.t,
        let c := BrandTheme.colors t in
        let f := BrandTheme.fonts t in
        primaryColor (Some t)
        = (if String.eqb (BrandTheme.primary c) "" then "#2563eb"
           else BrandTheme.primary c)
        /\ secondaryColor (Some t)
           = (if String.eqb (BrandTheme.secondary c) "" then "#1f2937"
              else BrandTheme.secondary c)
        /\ accentColor (Some t)
           = (if String.eqb (BrandTheme.accent c) "" then "#f59e0b"
              else BrandTheme.accent c)
        /\ headingFont (Some t)
           = (if String.eqb (BrandTheme.heading f) "" then "inherit"
              else BrandTheme.heading f)
        /\ bodyFont (Some t)
           = (if String.eqb (BrandTheme.body f) "" then "inherit"
              else BrandTheme.body f))
  /\ (forall (id name : string) (c : ascii) (rest : string),
        let primary := String c rest in
        let t := BrandTheme.mk id name (BrandTheme.mkColors primary "" "")
                   (BrandTheme.mkFonts "" "") in
        primaryColor (Some t) = primary
        /\ secondaryColor (Some t) = "#1f2937"
        /\ accentColor (Some t) = "#f59e0b"
        /\ headingFont (Some t) = "inherit"
        /\ bodyFont (Some t) = "inherit").
Proof.
  split; [repeat split|].
  split.
  - intros t c f.
    unfold primaryColor, secondaryColor, accentColor, headingFont, bodyFont,
      opt_chain.
    rewrite !or_default_some. repeat split.
  - intros id name c rest primary t. repeat split.
Qed.

End Theme.

(** ** Strings *)

Section Strings.
Import JS.
Local Open Scope string_scope.

Lemma length_append (s t : string) :
  String.length (s ++ t) = (String.length s + String.length t)%nat.
Proof.
  induction s as [|c s IH]; simpl; [reflexivity|]. now rewrite IH.
Qed.

Lemma append_empty_r (s : string) : s ++ "" = s.
Proof.
  induction s as [|c s IH]; simpl; [reflexivity|]. now rewrite IH.
Qed.

(** Only the empty string leaves a suffix as it is. *)
Lemma append_fixes_suffix (s t : string) : s ++ t = t -> s = "".
Proof.
  intro H. apply (f_equal String.length) in H. rewrite length_append in H.
  destruct s; [reflexivity|]. simpl in H. lia.
Qed.

(** A common suffix cancels. *)
Lemma append_cancel_r (t : string) :
  forall s s' : string, s ++ t = s' ++ t -> s = s'.
Proof.
  induction s as [|c s IH]; intros [|c' s'] H.
  - reflexivity.
  - symmetry in H. apply (append_fixes_suffix (String c' s') t) in H.
    discriminate H.
  - apply (append_fixes_suffix (String c s) t) in H. discriminate H.
  - simpl in H. injection H as Hc Hs. subst c'. f_equal. now apply IH.
Qed.

End Strings.

(** ** The composed document *)

Section Document.
Import JS PDF InvoiceGenerator.
Local Open Scope string_scope.
Local Open Scope list_scope.
Local Open Scope float_scope.

Lemma filter_none {A : Type} (p q : A -> bool) (l : list A) :
  (forall a, q a = true -> p a = false) ->
  forallb q l = true -> filter p l = [].
Proof.
  intros Hpq. induction l as [|a l IH]; simpl; [reflexivity|].
  intro H. apply andb_true_iff in H. destruct H as [Ha Hl].
  rewrite (Hpq a Ha). now apply IH.
Qed.

Lemma itemRows_rowsFrom (items : list InvoiceItem.t) (y : number) :
  forall i : nat,
    itemRows items (Spec.cursorAfter i y)
    = (Spec.rowsFrom i y items,
       Spec.cursorAfter (i + List.length items) y).
Proof.
  induction items as [|item rest IH]; intro i; simpl.
  - now rewrite Nat.add_0_r.
  - change (Spec.cursorAfter i y + 10) with (Spec.cursorAfter (S i) y).
    rewrite IH. now rewrite Nat.add_succ_r.
Qed.

Lemma rowsFrom_text_only (items : list InvoiceItem.t) (y : number) :
  forall i : nat, forallb Spec.isTextOrStyle (Spec.rowsFrom i y items) = true.
Proof.
  induction items as [|item rest IH]; intro i; simpl; [reflexivity|].
  apply IH.
Qed.

Lemma billTo_text_only (c : ClientInfo.t) :
  forallb Spec.isTextOrStyle (billTo c) = true.
Proof.
  unfold billTo.
  destruct (ClientInfo.company c) as [company|];
    [destruct (truthy company)|];
    destruct (truthy (ClientInfo.email c)); reflexivity.
Qed.

Lemma notesBlock_text_only (notes : string) (y : number) :
  forallb Spec.isTextOrStyle (notesBlock notes y) = true.
Proof.
  unfold notesBlock. destruct (truthy notes); reflexivity.
Qed.

(** The document, block by block: one cursor runs down the page from the
    header row at 100. *)
Lemma document_layout (st : State) :
  let yPosition :=
    Spec.cursorAfter (List.length (items st)) 110 + 10 in
  document st
  = titleAndDetails st
    ++ billTo (clientInfo st)
    ++ tableHeader 100
    ++ Spec.rowsFrom 0 110 (items st)
    ++ totalsBlock (items st) yPosition
    ++ notesBlock (notes st) yPosition.
Proof.
  unfold document. cbv zeta.
  change (100 + 10) with (Spec.cursorAfter 0 110).
  now rewrite itemRows_rowsFrom.
Qed.

(** Every call of the document sets a text style or draws one text run. *)
Lemma document_text_only (st : State) :
  forallb Spec.isTextOrStyle (document st) = true.
Proof.
  rewrite document_layout. cbv zeta.
  rewrite !forallb_app.
  rewrite billTo_text_only, rowsFrom_text_only, notesBlock_text_only.
  reflexivity.
Qed.

(** The rows of a list in two parts: the second part starts as many steps
    down as the first part has items. *)
Lemma rowsFrom_app (front back : list InvoiceItem.t) (y : number) :
  forall i : nat,
    Spec.rowsFrom i y (front ++ back)
    = Spec.rowsFrom i y front
      ++ Spec.rowsFrom (i + List.length front) y back.
Proof.
  induction front as [|item front IH]; intro i; simpl.
  - now rewrite Nat.add_0_r.
  - rewrite IH. now rewrite Nat.add_succ_r.
Qed.

(** The cursor steps once after the last row and once more before the
    totals: the totals start two steps of 10 below the last row. *)
Lemma totals_two_steps_below_last_row
  (st : State) (rest : list InvoiceItem.t) (last : InvoiceItem.t) :
  items st = rest ++ [last] ->
  let yLast := Spec.cursorAfter (List.length rest) 110 in
  incl (itemRow last yLast) (document st)
  /\ incl (totalsBlock (items st) (yLast + 10 + 10)) (document st)
  /\ incl (notesBlock (notes st) (yLast + 10 + 10)) (document st).
Proof.
  intros Hitems yLast.
  assert (Hy : Spec.cursorAfter (List.length (items st)) 110 + 10
               = yLast + 10 + 10).
  { rewrite Hitems, length_app, Nat.add_1_r. reflexivity. }
  rewrite (document_layout st). cbv zeta. rewrite Hy.
  split; [|split]; intros op Hop.
  - rewrite Hitems, rowsFrom_app.
    do 3 (apply in_or_app; right).
    apply in_or_app; left. apply in_or_app; right. exact Hop.
  - do 4 (apply in_or_app; right). apply in_or_app; left. exact Hop.
  - do 5 (apply in_or_app; right). exact Hop.
Qed.

(** C2 (amended): the layout keeps one vertical cursor and never opens a
    page.  The header row of the item table is drawn once, at 100; the row
    of the item at index i lies at 110 plus i steps of 10.  The cursor steps
    10 after every row and 10 more before the totals, so the totals start at
    110 plus n steps of 10 plus 10 for n items: two steps of 10, that is 20,
    below the last row, and at 120 when there is no item; the notes follow
    from the same position.  Whatever the item count, no [addPage] call is
    made and the document has one page. *)
Theorem layout_one_cursor_one_page :
  forall st : State,
    (let yPosition :=
       Spec.cursorAfter (List.length (items st)) 110 + 10 in
     document st
     = titleAndDetails st
       ++ billTo (clientInfo st)
       ++ tableHeader 100
       ++ Spec.rowsFrom 0 110 (items st)
       ++ totalsBlock (items st) yPosition
       ++ notesBlock (notes st) yPosition)
    /\ (forall (rest : list InvoiceItem.t) (last : InvoiceItem.t),
          items st = rest ++ [last] ->
          let yLast := Spec.cursorAfter (List.length rest) 110 in
          incl (itemRow last yLast) (document st)
          /\ incl (totalsBlock (items st) (yLast + 10 + 10)) (document st)
          /\ incl (notesBlock (notes st) (yLast + 10 + 10)) (document st))
    /\ (items st = [] -> incl (totalsBlock [] 120) (document st))
    /\ filter isAddPage (document st) = []
    /\ pageCount (document st) = 1%nat.
Proof.
  intro st.
  assert (Hnone : filter isAddPage (document st) = []).
  { apply filter_none with (q := Spec.isTextOrStyle).
    - now intros [].
    - apply document_text_only. }
  split; [apply document_layout|].
  split; [intros rest last; apply totals_two_steps_below_last_row|].
  split.
  - intros Hnil op Hop. rewrite (document_layout st). cbv zeta.
    rewrite Hnil.
    do 4 (apply in_or_app; right). apply in_or_app; left. exact Hop.
  - split; [assumption|].
    unfold pageCount. now rewrite Hnone.
Qed.

(** C2 (counterexample): with thirty items the rows run down to 400 and the
    totals to 440, past the 297 of the page, and the document still has one
    page: no second page opens and no header row is repeated. *)
Lemma thirty_items_overflow_the_only_page :
  let doc := document (Sample.invoice "INV-001" Sample.thirtyItems "") in
  List.length Sample.thirtyItems = 30%nat
  /\ In (drawText [Lit "Qty"] 120 100) doc
  /\ In (drawText [NumToString 1] 120 400) doc
  /\ forallb (Spec.within a4Height) doc = false
  /\ pageCount doc = 1%nat
  /\ List.length (filter (fun op => match op with
                                    | Text [Lit "Qty"] _ _ _ => true
                                    | _ => false
                                    end) doc) = 1%nat.
Proof.
  vm_compute. repeat split; try reflexivity.
  - repeat first [left; reflexivity | right].
  - repeat first [left; reflexivity | right].
Qed.

End Document.

(** ** Wrapping and file names *)

Section WrappingAndNames.
Import JS PDF InvoiceGenerator.
Local Open Scope string_scope.
Local Open Scope list_scope.
Local Open Scope float_scope.

(** [generatePDF] of the mailing generator returns normally, having read
    the clock twice. *)
Lemma mail_generatePDF_returns (b : EmailInvoice.Backend) (w : EmailInvoice.World) :
  EmailInvoice.generatePDF b w
  = (EmailInvoice.Ok (Spec.pdfOf b w),
     Spec.withClock (EmailInvoice.clock w) (S (S (EmailInvoice.ticks w))) w).
Proof.
  reflexivity.
Qed.

(** C3 (amended): the program holds no wrapping of its own.  The mailing
    generator hands the service description to the backend's
    [splitTextToSize], at font size 12 and width [pageWidth - 40], and draws
    the lines it returns, unchanged and in their order, at (20, 170); that
    is its only wrapped text.  The themed generator wraps nothing: notes
    that are not empty are one text run below the "Notes:" label, an item's
    description is one text run, and neither enters a pagination height. *)
Theorem wrapping_is_the_backends :
  (forall (b : EmailInvoice.Backend) (w : EmailInvoice.World),
      exists (ops : list docOp) (w' : EmailInvoice.World),
        EmailInvoice.generatePDF b w = (EmailInvoice.Ok ops, w')
        /\ filter Spec.isTextLines ops
           = [ TextLines
                 (EmailInvoice.splitTextToSize b 12
                    (EmailInvoice.serviceDescription (EmailInvoice.formData w))
                    (EmailInvoice.pageWidth b - 40))
                 20 170 ])
  /\ (forall st : State, filter Spec.isTextLines (document st) = [])
  /\ (forall (c : ascii) (rest : string) (yPosition : number),
        notesBlock (String c rest) yPosition
        = [ SetFontSize 10;
            drawText [Lit "Notes:"] 20 (yPosition + 30);
            drawText [Lit (String c rest)] 20 (yPosition + 40) ])
  /\ (forall (item : InvoiceItem.t) (yPosition : number),
        hd_error (itemRow item yPosition)
        = Some (drawText [Lit (InvoiceItem.description item)] 20 yPosition)).
Proof.
  split.
  { intros b w. eexists. eexists. split.
    - apply mail_generatePDF_returns.
    - reflexivity. }
  split.
  { intro st. apply filter_none with (q := Spec.isTextOrStyle).
    - now intros [].
    - apply document_text_only. }
  split; reflexivity.
Qed.

(** C3 (counterexample): notes of 500 characters, on a sheet where the claim
    expects 13 lines of at most 40 characters, are drawn as one run of 500
    characters. *)
Lemma notes_of_500_characters_on_one_line :
  let doc := document (Sample.invoice "INV-001" initialItems Sample.notes500) in
  String.length Sample.notes500 = 500%nat
  /\ In (drawText [Lit Sample.notes500] 20 170) doc
  /\ Spec.drawnLines (notesBlock Sample.notes500 130)
     = [ [Lit "Notes:"]; [Lit Sample.notes500] ]
  /\ ~ Forall (fun line => (Spec.literalLength line <= 40)%nat)
         (Spec.drawnLines (notesBlock Sample.notes500 130)).
Proof.
  cbv zeta.
  split; [vm_compute; reflexivity|].
  split; [vm_compute; repeat first [left; reflexivity | right]|].
  split; [vm_compute; reflexivity|].
  intro H.
  assert (Hdrawn : Spec.drawnLines (notesBlock Sample.notes500 130)
                   = [ [Lit "Notes:"]; [Lit Sample.notes500] ])
    by (vm_compute; reflexivity).
  rewrite Hdrawn in H.
  inversion H as [|? ? _ Hrest]; subst.
  inversion Hrest as [|? ? Hlong _]; subst.
  assert (Hlen : Spec.literalLength [Lit Sample.notes500] = 500%nat)
    by (vm_compute; reflexivity).
  rewrite Hlen in Hlong. lia.
Qed.

(** Different invoice numbers give different download names. *)
Lemma saveName_injective (st st' : State) :
  saveName st = saveName st' -> invoiceNumber st = invoiceNumber st'.
Proof.
  unfold saveName. intro H. simpl in H.
  repeat (injection H as H).
  now apply append_cancel_r in H.
Qed.

(** C7 (amended): the download is named "invoice-", the invoice number and
    ".pdf", for every invoice number; the name is therefore never empty, and
    with an empty invoice number it is "invoice-.pdf": nothing is put in the
    number's place.  The mailed attachment is named after the client, with
    white space runs turned into dashes and capitals lowered, and the time
    of sending. *)
Theorem file_names :
  (forall (st : State) (w : World),
      downloads (generatePDF st w)
      = downloads w
        ++ [ mkDownload ("invoice-" ++ invoiceNumber st ++ ".pdf")
               (document st) ])
  /\ (forall st : State, saveName st <> "")
  /\ (forall (date due : string) (c : ClientInfo.t)
        (items : list InvoiceItem.t) (notes : string)
        (theme : option BrandTheme.t),
        saveName (mkState "" date due c items notes theme) = "invoice-.pdf")
  /\ (forall (d : EmailInvoice.InvoiceData) (now : Z),
        EmailInvoice.attachmentName d now
        = [ Lit ("invoice-"
                 ++ toLowerCase
                      (replaceWhiteSpace "-" (EmailInvoice.clientName d))
                 ++ "-");
            TimeValue now;
            Lit ".pdf" ]).
Proof.
  split; [reflexivity|].
  split; [intros st H; discriminate H|].
  split; reflexivity.
Qed.

(** C7 (counterexample): with an empty invoice number the download is named
    "invoice-.pdf"; there is no fallback between the prefix and the
    extension. *)
Lemma empty_invoice_number_gets_no_fallback :
  let st := Sample.invoice "" initialItems "" in
  saveName st = "invoice-.pdf"
  /\ ~ (exists fallback : string,
          fallback <> ""
          /\ saveName st = ("invoice-" ++ fallback ++ ".pdf")%string).
Proof.
  cbv zeta. split; [reflexivity|].
  intros [fallback [Hne Hname]].
  apply Hne. unfold saveName in Hname. simpl in Hname.
  injection Hname as Hname.
  symmetry in Hname. now apply append_fixes_suffix in Hname.
Qed.

End WrappingAndNames.

(** ** Validation *)

Section Validation.
Import JS PDF EmailInvoice.
Local Open Scope string_scope.
Local Open Scope list_scope.

Lemma trimStart_blank (s : string) :
  Spec.isBlank s = true -> trimStart s = "".
Proof.
  induction s as [|c s IH]; simpl; [reflexivity|].
  intro H. apply andb_true_iff in H. destruct H as [Hc Hs].
  rewrite Hc. now apply IH.
Qed.

Lemma trimStart_not_blank (s : string) :
  Spec.isBlank s = false ->
  exists (c : ascii) (rest : string),
    trimStart s = String c rest /\ isWhiteSpace c = false.
Proof.
  induction s as [|c s IH]; simpl; [discriminate|].
  destruct (isWhiteSpace c) eqn:Hc; simpl.
  - exact IH.
  - intros _. now exists c, s.
Qed.

Lemma trimEnd_keeps_head (c : ascii) (s : string) :
  isWhiteSpace c = false -> trimEnd (String c s) = String c (trimEnd s).
Proof.
  intro Hc. simpl. now rewrite Hc.
Qed.

(** A string trims to a truthy, that is non-empty, string exactly when it
    is not blank. *)
Lemma truthy_trim (s : string) : truthy (trim s) = negb (Spec.isBlank s).
Proof.
  unfold trim. destruct (Spec.isBlank s) eqn:Hs.
  - now rewrite trimStart_blank.
  - destruct (trimStart_not_blank s Hs) as [c [rest [Hstart Hc]]].
    rewrite Hstart, trimEnd_keeps_head by assumption. reflexivity.
Qed.

(** A string with an at sign is not blank. *)
Lemma includes_at_not_blank (s : string) :
  includes s "@" = true -> Spec.isBlank s = false.
Proof.
  induction s as [|c s IH]; [discriminate|].
  change (includes (String c s) "@")
    with (match ascii_dec "@" c with
          | left _ => String.prefix "" s
          | right _ => false
          end || includes s "@").
  change (Spec.isBlank (String c s)) with (isWhiteSpace c && Spec.isBlank s).
  destruct (ascii_dec "@" c) as [Heq|Hneq].
  - subst c. reflexivity.
  - intro H. rewrite (IH H). apply andb_false_r.
Qed.

Lemma validateForm_decides (w : World) :
  if Spec.accepts (formData w)
  then validateForm w = (Ok true, w)
  else exists description : string,
         validateForm w
         = (Ok false, Spec.withToast (Spec.validationToast description) w).
Proof.
  unfold validateForm, bind, getFormData, Spec.accepts.
  rewrite !truthy_trim, !negb_involutive.
  destruct (Spec.isBlank (clientName (formData w)));
    [eexists; reflexivity|].
  destruct (Spec.isBlank (serviceDescription (formData w)));
    [eexists; reflexivity|].
  destruct (PrimFloat.leb (totalHours (formData w)) 0);
    [eexists; reflexivity|].
  destruct (PrimFloat.leb (hourlyRate (formData w)) 0);
    [eexists; reflexivity|].
  destruct (Spec.isBlank (userName (formData w)));
    [eexists; reflexivity|].
  destruct (includes (userEmail (formData w)) "@") eqn:Hat.
  - rewrite (includes_at_not_blank _ Hat). simpl. now destruct w.
  - rewrite orb_true_r. simpl. eexists; reflexivity.
Qed.

End Validation.

(** ** Generation and delivery *)

Section Delivery.
Import JS PDF EmailInvoice.
Local Open Scope string_scope.
Local Open Scope list_scope.

(** A rejected form: the handler returns at once, one toast shown. *)
Lemma handler_rejected (b : Backend) (sendEmail : EmailRequest -> SendResult)
  (w : World) :
  Spec.accepts (formData w) = false ->
  exists description : string,
    handleGenerateAndSend b sendEmail w
    = (Ok tt, Spec.withToast (Spec.validationToast description) w).
Proof.
  intro Hacc. pose proof (validateForm_decides w) as Hv.
  rewrite Hacc in Hv. destruct Hv as [description Hv].
  exists description. unfold handleGenerateAndSend, bind.
  rewrite Hv. reflexivity.
Qed.

(** An accepted form: the document is built, the request is sent, and
    whatever is thrown on the way is caught. *)
Lemma handler_accepted (b : Backend) (sendEmail : EmailRequest -> SendResult)
  (w : World) :
  Spec.accepts (formData w) = true ->
  handleGenerateAndSend b sendEmail w
  = (Ok tt,
     match Spec.failure (sendEmail (Spec.requestOf b w)) with
     | Some e => Spec.afterFailure b e w
     | None => Spec.afterSuccess b w
     end).
Proof.
  intro Hacc. pose proof (validateForm_decides w) as Hv.
  rewrite Hacc in Hv.
  unfold handleGenerateAndSend. unfold bind at 1. rewrite Hv.
  cbv [negb bind setIsGenerating setIsSending tryCatchFinally consoleWrite
       getFormData readClock ret awaitSendEmail toast setFormData throw
       formData isGenerating isSending toasts console outbox clock ticks].
  rewrite mail_generatePDF_returns.
  cbv [Spec.withClock formData isGenerating isSending toasts console outbox
       clock ticks].
  match goal with
  | |- context [sendEmail ?request] =>
      change request with (Spec.requestOf b w)
  end.
  destruct (sendEmail (Spec.requestOf b w)) as [[[|c message]|]|reason];
    cbv [truthy String.eqb negb Spec.failure Spec.afterFailure
         Spec.afterSuccess formData isGenerating isSending toasts console
         outbox clock ticks];
    repeat rewrite <- app_assoc; reflexivity.
Qed.

(** C9 (amended): the form is rejected exactly when the client's name, the
    service description or the issuer's name is blank (empty or white space
    only), the total hours or the hourly rate is [<= 0], or the e-mail
    address holds no at sign.  A rejection shows one "Validation Error"
    toast and ends the handler there: nothing is logged, generated or sent
    and the form stays as it is.  An accepted form is generated and sent.
    [generatePDF] itself checks nothing and never throws. *)
Theorem validation_gates_generation :
  (forall w : World,
      if Spec.accepts (formData w)
      then validateForm w = (Ok true, w)
      else exists description : string,
             validateForm w
             = (Ok false, Spec.withToast (Spec.validationToast description) w))
  /\ (forall (b : Backend) (sendEmail : EmailRequest -> SendResult) (w : World),
        if Spec.accepts (formData w)
        then exists w' : World,
               handleGenerateAndSend b sendEmail w = (Ok tt, w')
               /\ outbox w' = outbox w ++ [Spec.requestOf b w]
        else exists description : string,
               handleGenerateAndSend b sendEmail w
               = (Ok tt, Spec.withToast (Spec.validationToast description) w))
  /\ (forall (b : Backend) (w : World),
        exists (ops : list docOp) (w' : World),
          generatePDF b w = (Ok ops, w')).
Proof.
  split; [exact validateForm_decides|].
  split.
  - intros b sendEmail w.
    destruct (Spec.accepts (formData w)) eqn:Hacc.
    + eexists. split; [now apply handler_accepted|].
      now destruct (Spec.failure (sendEmail (Spec.requestOf b w))).
    + now apply handler_rejected.
  - intros b w. eexists. eexists. apply mail_generatePDF_returns.
Qed.

(** C9 (counterexample): a client name of one space is not empty, and no
    other field is empty, non-positive or without an at sign; the form is
    rejected all the same, and nothing is sent. *)
Lemma blank_client_name_is_rejected :
  let d := Sample.blankClientForm in
  let run := handleGenerateAndSend Sample.backend (fun _ => Resolved None)
               (Sample.world d) in
  clientName d <> ""
  /\ serviceDescription d <> ""
  /\ userName d <> ""
  /\ PrimFloat.ltb 0 (totalHours d) = true
  /\ PrimFloat.ltb 0 (hourlyRate d) = true
  /\ includes (userEmail d) "@" = true
  /\ fst (validateForm (Sample.world d)) = Ok false
  /\ outbox (snd run) = []
  /\ toasts (snd run)
     = [Spec.validationToast "Please enter the client's name"].
Proof.
  cbv zeta. repeat split; try discriminate; vm_compute; reflexivity.
Qed.

(** C8 (amended): when the delivery fails, by a rejection or by an answer
    with a truthy [error], the handler catches what is thrown: it writes it
    to the console, shows the generic failure toast, lowers both busy flags,
    keeps the form as entered and completes normally; the error does not
    reach the caller.  The document lives on only inside the request that
    was sent: a retry is the whole handler run again, which builds the
    document anew from the form. *)
Theorem failed_delivery_is_caught :
  forall (b : Backend) (sendEmail : EmailRequest -> SendResult) (w : World)
         (e : exn),
    Spec.accepts (formData w) = true ->
    Spec.failure (sendEmail (Spec.requestOf b w)) = Some e ->
    handleGenerateAndSend b sendEmail w = (Ok tt, Spec.afterFailure b e w)
    /\ forall retry : EmailRequest -> SendResult,
         let w1 := Spec.afterFailure b e w in
         handleGenerateAndSend b retry w1
         = (Ok tt,
            match Spec.failure (retry (Spec.requestOf b w1)) with
            | Some e' => Spec.afterFailure b e' w1
            | None => Spec.afterSuccess b w1
            end).
Proof.
  intros b sendEmail w e Hacc Hfail. split.
  - rewrite handler_accepted by assumption. now rewrite Hfail.
  - intros retry w1. now apply handler_accepted.
Qed.

(** The statement above at the sample form and a service that answers with
    an error. *)
Lemma failed_delivery_is_caught_witness :
  handleGenerateAndSend Sample.backend Sample.failingService
    (Sample.world Sample.form)
  = (Ok tt,
     Spec.afterFailure Sample.backend (ErrorObject "SMTP 554")
       (Sample.world Sample.form)).
Proof.
  exact (proj1 (failed_delivery_is_caught Sample.backend Sample.failingService
                  (Sample.world Sample.form) (ErrorObject "SMTP 554")
                  eq_refl eq_refl)).
Defined.

(** C8 (counterexample): the service answers the sample form with the error
    "SMTP 554"; the handler does not throw it but completes normally, the
    toast shown does not carry it, and the world keeps the form and no
    document. *)
Lemma delivery_error_is_not_propagated :
  let run := handleGenerateAndSend Sample.backend Sample.failingService
               (Sample.world Sample.form) in
  fst run <> Throw (ErrorObject "SMTP 554")
  /\ fst run = Ok tt
  /\ toasts (snd run) = [failureToast]
  /\ formData (snd run) = Sample.form.
Proof.
  cbv zeta. repeat split; try (vm_compute; reflexivity).
  vm_compute. discriminate.
Qed.

End Delivery.

(** ** Exporting twice *)

Section Determinism.
Import JS PDF.
Local Open Scope string_scope.
Local Open Scope list_scope.
Local Open Scope float_scope.

Lemma rowsFrom_no_timestamp (items : list InvoiceGenerator.InvoiceItem.t)
  (y : number) :
  forall i : nat,
    Spec.eraseTimestamps (Spec.rowsFrom i y items) = Spec.rowsFrom i y items.
Proof.
  induction items as [|item rest IH]; intro i; simpl; [reflexivity|].
  unfold Spec.eraseTimestamps in IH. now rewrite IH.
Qed.

(** The themed generator's document embeds no timestamp. *)
Lemma document_no_timestamp (st : InvoiceGenerator.State) :
  Spec.eraseTimestamps (InvoiceGenerator.document st)
  = InvoiceGenerator.document st.
Proof.
  rewrite document_layout. cbv zeta.
  unfold Spec.eraseTimestamps. rewrite !map_app.
  fold (Spec.eraseTimestamps
          (Spec.rowsFrom 0 110 (InvoiceGenerator.items st))).
  rewrite rowsFrom_no_timestamp.
  f_equal. f_equal.
  { unfold InvoiceGenerator.billTo.
    destruct (InvoiceGenerator.ClientInfo.company
                (InvoiceGenerator.clientInfo st)) as [company|];
      [destruct (truthy company)|];
      destruct (truthy (InvoiceGenerator.ClientInfo.email
                          (InvoiceGenerator.clientInfo st)));
      reflexivity. }
  f_equal. f_equal. f_equal.
  unfold InvoiceGenerator.notesBlock.
  destruct (truthy (InvoiceGenerator.notes st)); reflexivity.
Qed.

(** C6: exporting the same invoice twice gives the same layout.  The
    themed generator's two downloads carry the same name and the same call
    sequence, which embeds no timestamp; the first export leaves nothing
    that the second reads.  The mailing generator's document depends on the
    clock only through the invoice date and the invoice number it prints:
    with these blanked, the documents built at any two times, and those of
    two exports in a row, are equal. *)
Theorem export_twice_same_layout :
  (forall (st : InvoiceGenerator.State) (w : InvoiceGenerator.World),
      let d := InvoiceGenerator.mkDownload (InvoiceGenerator.saveName st)
                 (InvoiceGenerator.document st) in
      InvoiceGenerator.downloads
        (InvoiceGenerator.generatePDF st (InvoiceGenerator.generatePDF st w))
      = InvoiceGenerator.downloads w ++ [d; d])
  /\ (forall st : InvoiceGenerator.State,
        Spec.eraseTimestamps (InvoiceGenerator.document st)
        = InvoiceGenerator.document st)
  /\ (forall (b : EmailInvoice.Backend) (w : EmailInvoice.World)
        (clock' : nat -> Z) (ticks' : nat),
        Spec.eraseTimestamps (Spec.pdfOf b w)
        = Spec.eraseTimestamps (Spec.pdfOf b (Spec.withClock clock' ticks' w)))
  /\ (forall (b : EmailInvoice.Backend) (w : EmailInvoice.World),
        exists (ops1 ops2 : list docOp) (w1 w2 : EmailInvoice.World),
          EmailInvoice.generatePDF b w = (EmailInvoice.Ok ops1, w1)
          /\ EmailInvoice.generatePDF b w1 = (EmailInvoice.Ok ops2, w2)
          /\ Spec.eraseTimestamps ops1 = Spec.eraseTimestamps ops2).
Proof.
  split.
  { intros st w d. simpl. now rewrite <- app_assoc. }
  split; [exact document_no_timestamp|].
  split; [reflexivity|].
  intros b w. do 4 eexists.
  split; [apply mail_generatePDF_returns|].
  split; [apply mail_generatePDF_returns|].
  reflexivity.
Qed.

(** Two exports of the sample form, a thousand readings of the clock
    apart, differ in their timestamps and in nothing else. *)
Example export_at_two_times :
  let w := Sample.world Sample.form in
  let later := Spec.withClock (EmailInvoice.clock w) 1000 w in
  Spec.pdfOf Sample.backend w <> Spec.pdfOf Sample.backend later
  /\ Spec.eraseTimestamps (Spec.pdfOf Sample.backend w)
     = Spec.eraseTimestamps (Spec.pdfOf Sample.backend later).
Proof.
  cbv zeta. split; [|reflexivity].
  intro H. apply (f_equal (fun ops => nth_error ops 6)) in H.
  vm_compute in H. discriminate H.
Qed.

End Determinism.

(* ================================================================== *)
(** * Part III: further properties of the page *)
(* ================================================================== *)

(** ** Removing and editing rows *)

Section Rows.
Import JS InvoiceGenerator.
Local Open Scope string_scope.
Local Open Scope list_scope.
Local Open Scope float_scope.

Lemma filter_all {A : Type} (p : A -> bool) (l : list A) :
  (forall a, In a l -> p a = true) -> filter p l = l.
Proof.
  intro H. apply forallb_filter_id. apply forallb_forall. exact H.
Qed.

Lemma filter_twice {A : Type} (p : A -> bool) (l : list A) :
  filter p (filter p l) = filter p l.
Proof.
  apply forallb_filter_id. apply forallb_filter.
Qed.

(** In a list without a repeated id, only the item itself carries its id. *)
Lemma other_ids_differ (before after : list InvoiceItem.t) (item : InvoiceItem.t) :
  NoDup (map InvoiceItem.id (before ++ item :: after)) ->
  forall other, In other (before ++ after) ->
    negb (String.eqb (InvoiceItem.id other) (InvoiceItem.id item)) = true.
Proof.
  intros Hnodup other Hin. rewrite map_app in Hnodup. simpl in Hnodup.
  apply NoDup_remove_2 in Hnodup. rewrite <- map_app in Hnodup.
  apply negb_true_iff. apply String.eqb_neq. intro Heq.
  apply Hnodup. rewrite <- Heq. now apply in_map.
Qed.

(** X1: in a list of at least two items whose ids are pairwise different,
    [removeItem] with the id of a listed item takes out that item and
    nothing else, and keeps the order of the others. *)
Theorem removeItem_takes_out_one_item :
  forall (item : InvoiceItem.t) (items : list InvoiceItem.t),
    NoDup (map InvoiceItem.id items) ->
    In item items ->
    (1 < List.length items)%nat ->
    exists before after : list InvoiceItem.t,
      items = before ++ item :: after
      /\ removeItem (InvoiceItem.id item) items = before ++ after.
Proof.
  intros item items Hnodup Hin Hlen.
  destruct (in_split _ _ Hin) as [before [after Hsplit]].
  exists before, after. split; [assumption|].
  rewrite removeItem_many by assumption. subst items.
  pose proof (other_ids_differ before after item Hnodup) as Hother.
  rewrite filter_app. simpl. rewrite String.eqb_refl. simpl.
  rewrite <- filter_app. apply filter_all. exact Hother.
Qed.

(** The statement above for the second of three items. *)
Lemma removeItem_takes_out_one_item_witness :
  exists before after : list InvoiceItem.t,
    itemsAfter [AddItem 5; AddItem 6]
    = before ++ InvoiceItem.mk "5" "" 1 0 0 :: after
    /\ removeItem "5" (itemsAfter [AddItem 5; AddItem 6]) = before ++ after.
Proof.
  apply (removeItem_takes_out_one_item (InvoiceItem.mk "5" "" 1 0 0)
           (itemsAfter [AddItem 5; AddItem 6])).
  - vm_compute. repeat constructor; simpl; intuition discriminate.
  - vm_compute. right. left. reflexivity.
  - vm_compute. lia.
Defined.

(** X2: [removeItem] is idempotent: removing the same id a second time
    changes nothing. *)
Theorem removeItem_idempotent :
  forall (id : string) (items : list InvoiceItem.t),
    removeItem id (removeItem id items) = removeItem id items.
Proof.
  intros id items. unfold removeItem.
  destruct (1 <? List.length items)%nat eqn:Hlen.
  - destruct (1 <? List.length (filter _ items))%nat; [|reflexivity].
    apply filter_twice.
  - now rewrite Hlen.
Qed.

(** X3: an id that no item carries is no key: [updateItem] with it changes
    nothing, whatever the edit, and so does [removeItem]. *)
Theorem unknown_id_changes_nothing :
  forall (id : string) (e : edit) (items : list InvoiceItem.t),
    ~ In id (map InvoiceItem.id items) ->
    updateItem id e items = items /\ removeItem id items = items.
Proof.
  intros id e items Hnotin.
  assert (Hneq : forall item, In item items ->
                   String.eqb (InvoiceItem.id item) id = false).
  { intros item Hin. apply String.eqb_neq. intro Heq. apply Hnotin.
    rewrite <- Heq. now apply in_map. }
  split.
  - unfold updateItem. rewrite <- (map_id items) at 2.
    apply map_ext_in. intros item Hin. now rewrite (Hneq item Hin).
  - unfold removeItem. destruct (1 <? List.length items)%nat; [|reflexivity].
    apply filter_all. intros item Hin. now rewrite (Hneq item Hin).
Qed.

(** The statement above for the id "7" and the first render's list. *)
Lemma unknown_id_changes_nothing_witness :
  updateItem "7" (SetRate 3) initialItems = initialItems
  /\ removeItem "7" initialItems = initialItems.
Proof.
  apply (unknown_id_changes_nothing "7" (SetRate 3) initialItems).
  simpl. intuition discriminate.
Defined.

End Rows.

(** ** The item list under fresh ids *)

Section FreshIds.
Import JS InvoiceGenerator.
Local Open Scope string_scope.
Local Open Scope list_scope.

Lemma expenseRows_ids (stamp : nat -> string) (expenses : list ExpenseItem.t) :
  forall i : nat,
    map InvoiceItem.id (expenseRows stamp i expenses)
    = map stamp (seq i (List.length expenses)).
Proof.
  induction expenses as [|e rest IH]; intro i; simpl; [reflexivity|].
  now rewrite IH.
Qed.

Lemma updateItem_ids (id : string) (e : edit) (items : list InvoiceItem.t) :
  Notions.editsId (UpdateItem id e) = false ->
  map InvoiceItem.id (updateItem id e items) = map InvoiceItem.id items.
Proof.
  intro He. unfold updateItem. rewrite map_map. apply map_ext.
  intro item. destruct (String.eqb (InvoiceItem.id item) id); [|reflexivity].
  destruct e; simpl in *; try reflexivity; discriminate.
Qed.

(** But for a removal, an event appends the ids it mints and touches no
    other id. *)
Lemma handle_ids (items : list InvoiceItem.t) (ev : event) :
  Notions.editsId ev = false ->
  match ev with
  | RemoveItem _ => True
  | _ => map InvoiceItem.id (handle items ev)
         = map InvoiceItem.id items ++ Notions.mintedIds ev
  end.
Proof.
  intro He. destruct ev as [now|id|id e|stamp expenses]; simpl; [|exact I| |].
  - unfold addItem. now rewrite map_app.
  - rewrite updateItem_ids by assumption. now rewrite app_nil_r.
  - unfold handleExpenseItemsAdd. rewrite map_app. now rewrite expenseRows_ids.
Qed.

Lemma filter_keeps_NoDup_app {A B : Type} (f : A -> B) (p : A -> bool)
  (rest : list B) (l : list A) :
  NoDup (map f l ++ rest) -> NoDup (map f (filter p l) ++ rest).
Proof.
  induction l as [|a l IH]; simpl; [trivial|].
  intro H. inversion H as [|? ? Hnotin Hnodup]; subst.
  destruct (p a); simpl; [|now apply IH].
  constructor; [|now apply IH].
  intro Hin. apply Hnotin. apply in_app_iff in Hin. apply in_app_iff.
  destruct Hin as [Hin|Hin]; [left|now right].
  apply in_map_iff in Hin. destruct Hin as [x [Hx Hfilter]].
  apply filter_In in Hfilter. apply in_map_iff. exists x. tauto.
Qed.

(** Without a repeated id a removal leaves a non-empty list non-empty. *)
Lemma removeItem_nonempty (id : string) (items : list InvoiceItem.t) :
  NoDup (map InvoiceItem.id items) -> items <> [] -> removeItem id items <> [].
Proof.
  intros Hnodup Hne.
  destruct items as [|a [|b rest]]; [contradiction| now rewrite removeItem_last |].
  inversion Hnodup as [|? ? Hnotin _]; subst.
  destruct (String.eqb_spec (InvoiceItem.id a) id) as [Ha|Ha].
  - apply removeItem_keeps_other with (other := b); [simpl; tauto|].
    intro Hb. apply Hnotin. left. congruence.
  - apply removeItem_keeps_other with (other := a); [simpl; tauto|assumption].
Qed.

Lemma fresh_ids_from (evs : list event) :
  forall items : list InvoiceItem.t,
    items <> [] ->
    NoDup (map InvoiceItem.id items ++ flat_map Notions.mintedIds evs) ->
    forallb (fun ev => negb (Notions.editsId ev)) evs = true ->
    fold_left handle evs items <> []
    /\ NoDup (map InvoiceItem.id (fold_left handle evs items)).
Proof.
  induction evs as [|ev rest IH]; intros items Hne Hnodup Hedits; simpl.
  - split; [assumption|]. simpl in Hnodup. now rewrite app_nil_r in Hnodup.
  - simpl in Hedits. apply andb_true_iff in Hedits.
    destruct Hedits as [Hev Hrest]. apply negb_true_iff in Hev.
    simpl in Hnodup.
    pose proof (handle_ids items ev Hev) as Hids.
    pose proof (handle_length items ev) as Hlen.
    apply IH; try assumption.
    + destruct ev as [now|id|id e|stamp expenses];
        try (intro Hnil; rewrite Hnil in Hlen; destruct items;
             [contradiction | simpl in Hlen; lia]).
      apply removeItem_nonempty; [|assumption].
      now apply NoDup_app_remove_r in Hnodup.
    + destruct ev as [now|id|id e|stamp expenses];
        try (rewrite Hids, <- app_assoc; assumption).
      simpl in *. unfold removeItem.
      destruct (1 <? List.length items)%nat; [|assumption].
      now apply filter_keeps_NoDup_app.
Qed.

(** X4: when every id the form mints is new (no two items are added at
    the same reading of the clock, none at the reading 1, no expense
    repeats a stamp) and no id is overwritten, the item list is never empty
    and never holds an id twice, whatever is added, edited or removed. *)
Theorem fresh_ids_keep_the_list_non_empty :
  forall evs : list event,
    NoDup ("1" :: flat_map Notions.mintedIds evs) ->
    forallb (fun ev => negb (Notions.editsId ev)) evs = true ->
    itemsAfter evs <> []
    /\ NoDup (map InvoiceItem.id (itemsAfter evs)).
Proof.
  intros evs Hnodup Hedits. unfold itemsAfter.
  apply fresh_ids_from; [discriminate|exact Hnodup|exact Hedits].
Qed.

(** The statement above for items added at three different milliseconds. *)
Lemma fresh_ids_keep_the_list_non_empty_witness :
  itemsAfter MoreSamples.threeMilliseconds <> []
  /\ NoDup (map InvoiceItem.id (itemsAfter MoreSamples.threeMilliseconds)).
Proof.
  apply (fresh_ids_keep_the_list_non_empty MoreSamples.threeMilliseconds).
  - vm_compute. repeat constructor; simpl; intuition discriminate.
  - reflexivity.
Defined.

End FreshIds.

(** ** Edits from the form and the totals *)

Section FormEdits.
Import JS PDF InvoiceGenerator.
Local Open Scope string_scope.
Local Open Scope list_scope.
Local Open Scope float_scope.

Lemma subtotal_of_amounts (items items' : list InvoiceItem.t) :
  map InvoiceItem.amount items' = map InvoiceItem.amount items ->
  subtotal items' = subtotal items.
Proof.
  intro H. unfold subtotal. now rewrite !reduce_amounts, H.
Qed.

(** X5: editing a description changes no number: the quantities, rates
    and amounts of all items, and with them the subtotal, the tax and the
    total, are what they were. *)
Theorem description_edit_keeps_the_totals :
  forall (id value : string) (st : State),
    let st' := InvoiceForm.onDescriptionChange id value st in
    map InvoiceItem.quantity (items st') = map InvoiceItem.quantity (items st)
    /\ map InvoiceItem.rate (items st') = map InvoiceItem.rate (items st)
    /\ map InvoiceItem.amount (items st') = map InvoiceItem.amount (items st)
    /\ subtotal (items st') = subtotal (items st)
    /\ tax (items st') = tax (items st)
    /\ total (items st') = total (items st).
Proof.
  intros id value st. cbv zeta. simpl.
  assert (Hq : map InvoiceItem.quantity
                 (updateItem id (SetDescription value) (items st))
               = map InvoiceItem.quantity (items st)).
  { unfold updateItem. rewrite map_map. apply map_ext. intro item.
    now destruct (String.eqb (InvoiceItem.id item) id). }
  assert (Hr : map InvoiceItem.rate
                 (updateItem id (SetDescription value) (items st))
               = map InvoiceItem.rate (items st)).
  { unfold updateItem. rewrite map_map. apply map_ext. intro item.
    now destruct (String.eqb (InvoiceItem.id item) id). }
  assert (Ha : map InvoiceItem.amount
                 (updateItem id (SetDescription value) (items st))
               = map InvoiceItem.amount (items st)).
  { unfold updateItem. rewrite map_map. apply map_ext. intro item.
    now destruct (String.eqb (InvoiceItem.id item) id). }
  pose proof (subtotal_of_amounts _ _ Ha) as Hs.
  repeat split; try assumption; unfold total, tax; now rewrite Hs.
Qed.

(** A number put in the place of a falsy one is the number entered when
    that is truthy, and the fallback otherwise. *)
Lemma orElse_truthy (parsed fallback : number) :
  JSNumber.truthy fallback = true ->
  JSNumber.truthy (JSNumber.orElse parsed fallback) = true.
Proof.
  intro H. unfold JSNumber.orElse.
  now destruct (JSNumber.truthy parsed) eqn:Hp.
Qed.

Lemma orElse_not_nan (parsed fallback : number) :
  (fallback =? fallback) = true ->
  let v := JSNumber.orElse parsed fallback in (v =? v) = true.
Proof.
  intro H. unfold JSNumber.orElse. cbv zeta.
  destruct (JSNumber.truthy parsed) eqn:Hp; [|assumption].
  unfold JSNumber.truthy in Hp. now apply andb_true_iff in Hp.
Qed.

(** X6: the quantity field never stores 0, -0 or NaN: such an entry is
    stored as 1; the rate field never stores NaN, which it stores as 0.
    Either way the amount of the edited item is its quantity times its
    rate. *)
Theorem form_edits_store_usable_numbers :
  forall (id : string) (parsed : number) (st : State),
    Forall (fun item =>
              InvoiceItem.id item = id ->
              InvoiceItem.quantity item
              = (if JSNumber.truthy parsed then parsed else 1)
              /\ JSNumber.truthy (InvoiceItem.quantity item) = true
              /\ InvoiceItem.amount item
                 = InvoiceItem.quantity item * InvoiceItem.rate item)
      (items (InvoiceForm.onQuantityChange id parsed st))
    /\ Forall (fun item =>
                 InvoiceItem.id item = id ->
                 InvoiceItem.rate item
                 = (if JSNumber.truthy parsed then parsed else 0)
                 /\ (InvoiceItem.rate item =? InvoiceItem.rate item) = true
                 /\ InvoiceItem.amount item
                    = InvoiceItem.quantity item * InvoiceItem.rate item)
         (items (InvoiceForm.onRateChange id parsed st)).
Proof.
  intros id parsed st. split; simpl; unfold updateItem;
    apply Forall_forall; intros item Hin;
    apply in_map_iff in Hin; destruct Hin as [old [Hnew _]]; intro Hid;
    destruct (String.eqb_spec (InvoiceItem.id old) id) as [Heq|Hneq];
    subst item; simpl in *; try contradiction.
  - repeat split. now apply orElse_truthy.
  - repeat split. now apply (orElse_not_nan parsed 0).
Qed.

Lemma expenseRows_of_expenses (stamp : nat -> string)
  (expenses : list ExpenseReceiptMatcher.ExpenseItem.t) :
  forall i : nat,
    expenseRows stamp i
      (map (fun e =>
              ExpenseItem.mk (ExpenseReceiptMatcher.ExpenseItem.description e)
                (ExpenseReceiptMatcher.ExpenseItem.amount e))
         expenses)
    = Notions.rowsOfExpenses stamp i expenses.
Proof.
  induction expenses as [|e rest IH]; intro i; simpl; [reflexivity|].
  now rewrite IH.
Qed.

Lemma rowsOfExpenses_amounts (stamp : nat -> string)
  (expenses : list ExpenseReceiptMatcher.ExpenseItem.t) :
  forall i : nat,
    map InvoiceItem.amount (Notions.rowsOfExpenses stamp i expenses)
    = map ExpenseReceiptMatcher.ExpenseItem.amount expenses.
Proof.
  induction expenses as [|e rest IH]; intro i; simpl; [reflexivity|].
  now rewrite IH.
Qed.

(** X7: expenses handed to the invoice are appended as rows of quantity 1
    whose rate and amount are the expense's amount; the rows there before
    are untouched, and the subtotal becomes the old subtotal with the
    amounts of the expenses added to it one by one, in their order. *)
Theorem added_expenses_raise_the_subtotal :
  forall (stamp : nat -> string)
         (expenses : list ExpenseReceiptMatcher.ExpenseItem.t) (st : State),
    let st' := InvoiceForm.onAddToInvoice stamp expenses st in
    items st' = items st ++ Notions.rowsOfExpenses stamp 0 expenses
    /\ List.length (items st')
       = (List.length (items st) + List.length expenses)%nat
    /\ subtotal (items st')
       = fold_left PrimFloat.add
           (map ExpenseReceiptMatcher.ExpenseItem.amount expenses)
           (subtotal (items st)).
Proof.
  intros stamp expenses st. cbv zeta. simpl.
  unfold handleExpenseItemsAdd. rewrite expenseRows_of_expenses.
  split; [reflexivity|]. split.
  - rewrite length_app. f_equal.
    clear. generalize 0%nat.
    induction expenses as [|e rest IH]; intro i; simpl; [reflexivity|].
    now rewrite IH.
  - unfold subtotal. rewrite fold_left_app, reduce_amounts.
    now rewrite rowsOfExpenses_amounts.
Qed.

End FormEdits.

(** ** What reaches the PDF *)

Section PdfContent.
Import JS PDF InvoiceGenerator.
Local Open Scope string_scope.
Local Open Scope list_scope.
Local Open Scope float_scope.

(** X8: of an applied theme the PDF shows the primary colour of the title
    and nothing else: after [handleThemeApply] the document is the one
    before with its second call, the colour of the title, replaced; the
    secondary and accent colours and both fonts change no call, and the
    name of the download is the same. *)
Theorem theme_reaches_the_title_colour_only :
  forall (theme : BrandTheme.t) (st : State),
    let st' := fst (InvoiceForm.handleThemeApply theme st) in
    document st'
    = SetFontSize 24
      :: SetTextColor (Hex (primaryColor (Some theme)))
      :: skipn 2 (document st)
    /\ firstn 1 (document st) = [SetFontSize 24]
    /\ saveName st' = saveName st.
Proof.
  intros theme st. cbv zeta. repeat split.
Qed.

Lemma rowsFrom_draws (items : list InvoiceItem.t) (y : number)
  (item : InvoiceItem.t) :
  In item items ->
  forall i : nat,
    exists k : nat,
      incl (itemRow item (Spec.cursorAfter k y)) (Spec.rowsFrom i y items).
Proof.
  induction items as [|first rest IH]; intros Hin i; [contradiction|].
  destruct Hin as [Heq|Hin].
  - subst first. exists i. intros op Hop.
    change (In op (itemRow item (Spec.cursorAfter i y)
                   ++ Spec.rowsFrom (S i) y rest)).
    apply in_app_iff. now left.
  - destruct (IH Hin (S i)) as [k Hk]. exists k.
    intros op Hop.
    change (In op (itemRow first (Spec.cursorAfter i y)
                   ++ Spec.rowsFrom (S i) y rest)).
    apply in_app_iff. right. now apply Hk.
Qed.

(** X9: no item is left out of the PDF: for each item of the invoice, at
    whatever place in the list, its description, quantity, rate and amount
    are drawn in one row, at the columns 20, 120, 140 and 170. *)
Theorem every_item_is_drawn :
  forall (st : State) (item : InvoiceItem.t),
    In item (items st) ->
    exists yPosition : number,
      In (drawText [Lit (InvoiceItem.description item)] 20 yPosition)
        (document st)
      /\ In (drawText [NumToString (InvoiceItem.quantity item)] 120 yPosition)
           (document st)
      /\ In (drawText [Lit "$"; NumToFixed2 (InvoiceItem.rate item)] 140
               yPosition)
           (document st)
      /\ In (drawText [Lit "$"; NumToFixed2 (InvoiceItem.amount item)] 170
               yPosition)
           (document st).
Proof.
  intros st item Hin.
  destruct (rowsFrom_draws (items st) 110 item Hin 0) as [k Hk].
  exists (Spec.cursorAfter k 110).
  assert (Hrow : incl (itemRow item (Spec.cursorAfter k 110)) (document st)).
  { intros op Hop. rewrite document_layout. cbv zeta.
    apply in_app_iff. right. apply in_app_iff. right.
    apply in_app_iff. right. apply in_app_iff. left. now apply Hk. }
  repeat split; apply Hrow; simpl; tauto.
Qed.

(** The statement above for the first render's item. *)
Lemma every_item_is_drawn_witness :
  exists yPosition : number,
    In (drawText [Lit ""] 20 yPosition) (document (initialState "2024-01-15"))
    /\ In (drawText [NumToString 1] 120 yPosition)
         (document (initialState "2024-01-15"))
    /\ In (drawText [Lit "$"; NumToFixed2 0] 140 yPosition)
         (document (initialState "2024-01-15"))
    /\ In (drawText [Lit "$"; NumToFixed2 0] 170 yPosition)
         (document (initialState "2024-01-15")).
Proof.
  apply (every_item_is_drawn (initialState "2024-01-15")
           (InvoiceItem.mk "1" "" 1 0 0)).
  simpl. left. reflexivity.
Defined.

(** X10: the client's phone number and address never reach the PDF: two
    invoices that differ in them only give the same document and the same
    download. *)
Theorem pdf_leaves_out_phone_and_address :
  forall (st : State) (address phone : option string),
    let c := clientInfo st in
    let st' := InvoiceForm.setClientInfo
                 (ClientInfo.mk (ClientInfo.name c) (ClientInfo.email c)
                    (ClientInfo.company c) address phone) st in
    document st' = document st /\ saveName st' = saveName st.
Proof.
  intros st address phone. cbv zeta. split; reflexivity.
Qed.

End PdfContent.

(** ** The mailing handler as a whole *)

Section Mailing.
Import JS PDF EmailInvoice.
Local Open Scope string_scope.
Local Open Scope list_scope.
Local Open Scope float_scope.

(** X11: [handleGenerateAndSend] never rejects, whatever the mail service
    does: it completes normally for every form, backend and service.  After
    an accepted form both busy flags are down, so the button is enabled
    again; after a rejected form the flags are what they were. *)
Theorem handler_always_completes :
  forall (b : Backend) (sendEmail : EmailRequest -> SendResult) (w : World),
    exists w' : World,
      handleGenerateAndSend b sendEmail w = (Ok tt, w')
      /\ (if Spec.accepts (formData w)
          then EmailForm.buttonDisabled w' = false
          else isGenerating w' = isGenerating w
               /\ isSending w' = isSending w).
Proof.
  intros b sendEmail w. destruct (Spec.accepts (formData w)) eqn:Hacc.
  - eexists. split; [now apply handler_accepted|].
    now destruct (Spec.failure (sendEmail (Spec.requestOf b w))).
  - destruct (handler_rejected b sendEmail w Hacc) as [description H].
    eexists. split; [exact H|]. split; reflexivity.
Qed.

(** The empty form is rejected for its client name. *)
Lemma empty_form_rejected (w : World) :
  formData w = emptyForm ->
  validateForm w
  = (Ok false,
     Spec.withToast (Spec.validationToast "Please enter the client's name") w).
Proof.
  intro H. unfold validateForm, bind, getFormData. rewrite H. reflexivity.
Qed.

(** X12: a successful send empties the form, so the invoice cannot be sent
    twice by clicking twice: the next click is rejected for the missing
    client name, sends nothing and generates nothing. *)
Theorem second_click_after_success_is_rejected :
  forall (b : Backend) (sendEmail again : EmailRequest -> SendResult)
         (w : World),
    Spec.accepts (formData w) = true ->
    Spec.failure (sendEmail (Spec.requestOf b w)) = None ->
    let w1 := Notions.after (handleGenerateAndSend b sendEmail) w in
    formData w1 = emptyForm
    /\ outbox w1 = outbox w ++ [Spec.requestOf b w]
    /\ handleGenerateAndSend b again w1
       = (Ok tt,
          Spec.withToast
            (Spec.validationToast "Please enter the client's name") w1).
Proof.
  intros b sendEmail again w Hacc Hok. cbv zeta. unfold Notions.after.
  rewrite handler_accepted by assumption. rewrite Hok. simpl.
  split; [reflexivity|]. split; [reflexivity|].
  unfold handleGenerateAndSend. unfold bind at 1.
  rewrite empty_form_rejected by reflexivity. reflexivity.
Qed.

(** The statement above at the sample form and a service that delivers. *)
Lemma second_click_after_success_is_rejected_witness :
  let w1 := Notions.after
              (handleGenerateAndSend Sample.backend MoreSamples.workingService)
              (Sample.world Sample.form) in
  formData w1 = emptyForm
  /\ outbox w1
     = outbox (Sample.world Sample.form)
       ++ [Spec.requestOf Sample.backend (Sample.world Sample.form)]
  /\ handleGenerateAndSend Sample.backend Sample.failingService w1
     = (Ok tt,
        Spec.withToast
          (Spec.validationToast "Please enter the client's name") w1).
Proof.
  exact (second_click_after_success_is_rejected Sample.backend
           MoreSamples.workingService Sample.failingService
           (Sample.world Sample.form) eq_refl eq_refl).
Defined.

(** X13: whatever leaves the page is addressed to the issuer alone: a run
    of the handler sends at most one request; its only recipient is the
    e-mail address of the form, which holds an at sign; its sender is the
    service's address; and it carries one attachment, the document just
    generated. *)
Theorem requests_go_to_the_validated_address :
  forall (b : Backend) (sendEmail : EmailRequest -> SendResult) (w : World),
    exists sent : list EmailRequest,
      outbox (Notions.after (handleGenerateAndSend b sendEmail) w)
      = outbox w ++ sent
      /\ (List.length sent <= 1)%nat
      /\ Forall (fun request =>
                   to request = [userEmail (formData w)]
                   /\ includes (userEmail (formData w)) "@" = true
                   /\ from request = "support@ezsite.ai"
                   /\ map content (attachments request) = [Spec.pdfOf b w])
           sent.
Proof.
  intros b sendEmail w. unfold Notions.after.
  destruct (Spec.accepts (formData w)) eqn:Hacc.
  - exists [Spec.requestOf b w]. rewrite handler_accepted by assumption.
    split; [now destruct (Spec.failure (sendEmail (Spec.requestOf b w)))|].
    split; [simpl; lia|].
    constructor; [|constructor]. repeat split.
    unfold Spec.accepts in Hacc. now apply andb_true_iff in Hacc.
  - destruct (handler_rejected b sendEmail w Hacc) as [description H].
    exists []. rewrite H. simpl. rewrite app_nil_r. repeat split.
    + lia.
    + constructor.
Qed.

(** X14: the summary in the mail and the attached document state the same
    total: the request of an accepted form prints, with two decimals, one
    number in its body and after "Total Amount: $" in its attachment, the
    hours times the rate. *)
Theorem mail_and_attachment_agree_on_the_total :
  forall (b : Backend) (w : World),
    let total := totalHours (formData w) * hourlyRate (formData w) in
    let request := Spec.requestOf b w in
    In (NumToFixed2 total) (html request)
    /\ Forall (fun attachment =>
                 In (Text [Lit "Total Amount: $"; NumToFixed2 total]
                       (pageWidth b - 80) 240 AlignRight)
                   (content attachment))
         (attachments request)
    /\ List.length (attachments request) = 1%nat.
Proof.
  intros b w. cbv zeta. split; [simpl; tauto|]. split; [|reflexivity].
  constructor; [|constructor].
  simpl. repeat first [left; reflexivity | right].
Qed.

End Mailing.

(** ** File names without white space *)

Section Slugs.
Import JS PDF.
Local Open Scope list_scope.
Local Open Scope string_scope.

Lemma lowerChar_white_space (c : ascii) :
  isWhiteSpace (lowerChar c) = isWhiteSpace c.
Proof.
  destruct c as [b0 b1 b2 b3 b4 b5 b6 b7].
  destruct b0, b1, b2, b3, b4, b5, b6, b7; reflexivity.
Qed.

Lemma hasWhiteSpace_append (s t : string) :
  Notions.hasWhiteSpace (s ++ t)
  = Notions.hasWhiteSpace s || Notions.hasWhiteSpace t.
Proof.
  induction s as [|c s IH]; simpl; [reflexivity|].
  now rewrite IH, orb_assoc.
Qed.

Lemma hasWhiteSpace_toLowerCase (s : string) :
  Notions.hasWhiteSpace (toLowerCase s) = Notions.hasWhiteSpace s.
Proof.
  induction s as [|c s IH]; simpl; [reflexivity|].
  now rewrite lowerChar_white_space, IH.
Qed.

Lemma replaceRuns_no_white_space (r : string) :
  Notions.hasWhiteSpace r = false ->
  forall (s : string) (inRun : bool),
    Notions.hasWhiteSpace (replaceRuns inRun r s) = false.
Proof.
  intros Hr. induction s as [|c s IH]; intro inRun; simpl; [reflexivity|].
  destruct (isWhiteSpace c) eqn:Hc.
  - destruct inRun; [apply IH|].
    rewrite hasWhiteSpace_append, Hr. apply IH.
  - simpl. rewrite Hc. apply IH.
Qed.

(** X15: the name of the mailed attachment holds no white space, whatever
    the client's name: every run of white space in it has become one dash
    before the name is lowered. *)
Theorem attachment_name_has_no_white_space :
  forall (d : EmailInvoice.InvoiceData) (now : Z),
    Notions.noWhiteSpace (EmailInvoice.attachmentName d now).
Proof.
  intros d now. unfold Notions.noWhiteSpace, EmailInvoice.attachmentName.
  repeat constructor.
  rewrite !hasWhiteSpace_append, hasWhiteSpace_toLowerCase.
  unfold replaceWhiteSpace.
  now rewrite replaceRuns_no_white_space.
Qed.


End Slugs.

(** ** Numbers entered in the mailing form *)

Section EnteredNumbers.
Import JS EmailInvoice.
Local Open Scope string_scope.
Local Open Scope list_scope.
Local Open Scope float_scope.

(** A number that is not NaN and not [<= 0] is [> 0]. *)
Lemma positive_when_not_nan (x : number) :
  (x =? x) = true -> (x <=? 0) = false -> (0 <? x) = true.
Proof.
  rewrite FloatAxioms.eqb_spec, FloatAxioms.leb_spec, FloatAxioms.ltb_spec.
  change (Prim2SF 0) with (S754_zero false).
  destruct (Prim2SF x) as [s|s| |s m e]; try destruct s; cbn; congruence.
Qed.

Lemma validated_is_accepted (w : World) :
  fst (validateForm w) = Ok true -> Spec.accepts (formData w) = true.
Proof.
  intro H. pose proof (validateForm_decides w) as Hd.
  destruct (Spec.accepts (formData w)); [reflexivity|].
  destruct Hd as [description Hd]. rewrite Hd in H. discriminate H.
Qed.

(** X18: hours and rate entered through their fields are never NaN (an
    entry that does not parse is stored as 0), so a form that passes
    [validateForm] has hours and a rate strictly above 0. *)
Theorem validated_hours_and_rate_are_positive :
  forall (parsedHours parsedRate : number) (w : World),
    let w' := Notions.after
                (EmailForm.onTotalHoursChange parsedHours ;;
                 EmailForm.onHourlyRateChange parsedRate) w in
    fst (validateForm w') = Ok true ->
    totalHours (formData w') = JSNumber.orElse parsedHours 0
    /\ hourlyRate (formData w') = JSNumber.orElse parsedRate 0
    /\ (0 <? totalHours (formData w')) = true
    /\ (0 <? hourlyRate (formData w')) = true.
Proof.
  intros parsedHours parsedRate w. cbv zeta. intro Hvalid.
  apply validated_is_accepted in Hvalid.
  unfold Spec.accepts in Hvalid.
  repeat (apply andb_true_iff in Hvalid; destruct Hvalid as [Hvalid ?]).
  repeat match goal with
         | H : negb _ = true |- _ => apply negb_true_iff in H
         end.
  split; [reflexivity|]. split; [reflexivity|].
  split; apply positive_when_not_nan; try assumption;
    simpl; now apply (orElse_not_nan _ 0).
Qed.

(** The statement above for 10 hours at a rate of 50 in the sample form. *)
Lemma validated_hours_and_rate_are_positive_witness :
  let w' := Notions.after
              (EmailForm.onTotalHoursChange 10 ;;
               EmailForm.onHourlyRateChange 50) (Sample.world Sample.form) in
  totalHours (formData w') = JSNumber.orElse 10 0
  /\ hourlyRate (formData w') = JSNumber.orElse 50 0
  /\ (0 <? totalHours (formData w')) = true
  /\ (0 <? hourlyRate (formData w')) = true.
Proof.
  exact (validated_hours_and_rate_are_positive 10 50
           (Sample.world Sample.form) eq_refl).
Defined.

End EnteredNumbers.

(** ** The expense matcher *)

Section Matcher.
Import JS ExpenseReceiptMatcher.
Local Open Scope string_scope.
Local Open Scope list_scope.

Lemma has_In (s : StringSet.t) (x : string) :
  StringSet.has s x = true <-> In x s.
Proof.
  unfold StringSet.has. rewrite existsb_exists. split.
  - intros [y [Hin Heq]]. apply String.eqb_eq in Heq. now subst y.
  - intro Hin. exists x. split; [assumption|apply String.eqb_refl].
Qed.

Lemma has_add (s : StringSet.t) (x y : string) :
  StringSet.has (StringSet.add s x) y = StringSet.has s y || String.eqb y x.
Proof.
  unfold StringSet.add. destruct (StringSet.has s x) eqn:Hx.
  - destruct (String.eqb_spec y x) as [Heq|Hneq].
    + subst y. now rewrite Hx.
    + now rewrite orb_false_r.
  - unfold StringSet.has. rewrite existsb_app. simpl. now rewrite orb_false_r.
Qed.

Lemma has_delete (s : StringSet.t) (x y : string) :
  StringSet.has (StringSet.delete s x) y
  = StringSet.has s y && negb (String.eqb y x).
Proof.
  unfold StringSet.has, StringSet.delete.
  induction s as [|z s IH]; simpl; [reflexivity|].
  destruct (String.eqb_spec z x) as [Hzx|Hzx]; simpl.
  - subst z. rewrite IH.
    destruct (String.eqb_spec y x); simpl;
      [now rewrite andb_false_r | reflexivity].
  - rewrite IH. destruct (String.eqb_spec y z) as [Hyz|Hyz]; simpl.
    + subst z. destruct (String.eqb_spec y x); [contradiction|reflexivity].
    + reflexivity.
Qed.

(** X19: a click on an expense flips whether its id is selected and
    leaves every other id as it was; a second click restores the selection.
    Files, expenses and the busy flag are not touched. *)
Theorem toggle_flips_one_id :
  forall (itemId x : string) (st : State),
    let st' := toggleItemSelection itemId st in
    StringSet.has (selectedItems st') x
    = (if String.eqb x itemId then negb (StringSet.has (selectedItems st) x)
       else StringSet.has (selectedItems st) x)
    /\ StringSet.has (selectedItems (toggleItemSelection itemId st')) x
       = StringSet.has (selectedItems st) x
    /\ uploadedFiles st' = uploadedFiles st
    /\ extractedExpenses st' = extractedExpenses st
    /\ isProcessing st' = isProcessing st.
Proof.
  intros itemId x st. cbv zeta.
  assert (Hflip : forall s : StringSet.t,
            StringSet.has (if StringSet.has s itemId
                           then StringSet.delete s itemId
                           else StringSet.add s itemId) x
            = (if String.eqb x itemId then negb (StringSet.has s x)
               else StringSet.has s x)).
  { intro s. destruct (StringSet.has s itemId) eqn:Hid.
    - rewrite has_delete. destruct (String.eqb_spec x itemId) as [Heq|Hneq].
      + subst x. now rewrite Hid.
      + now rewrite andb_true_r.
    - rewrite has_add. destruct (String.eqb_spec x itemId) as [Heq|Hneq].
      + subst x. now rewrite Hid.
      + now rewrite orb_false_r. }
  split; [apply Hflip|]. split; [|repeat split].
  unfold toggleItemSelection. simpl. rewrite !Hflip.
  destruct (String.eqb x itemId); [apply negb_involutive|reflexivity].
Qed.

Lemma filterIndex_after {A : Type} (index : nat) (l : list A) :
  forall i : nat, (index < i)%nat -> filterIndex index i l = l.
Proof.
  induction l as [|x l IH]; intros i Hi; simpl; [reflexivity|].
  destruct (Nat.eqb_spec i index); [lia|]. f_equal. apply IH. lia.
Qed.

Lemma filterIndex_from {A : Type} (index : nat) (l : list A) :
  forall i : nat,
    (i <= index)%nat ->
    filterIndex index i l
    = firstn (index - i) l ++ skipn (S (index - i)) l.
Proof.
  induction l as [|x l IH]; intros i Hi; simpl.
  - now rewrite firstn_nil.
  - destruct (Nat.eqb_spec i index) as [Heq|Hneq].
    + subst i. rewrite Nat.sub_diag. simpl. apply filterIndex_after. lia.
    + destruct (index - i)%nat as [|k] eqn:Hk; [lia|]. simpl. f_equal.
      rewrite IH by lia. replace (index - S i)%nat with k by lia. reflexivity.
Qed.

(** X20: [removeFile] takes out the file at the given position and no
    other, keeping the order; a position beyond the list removes nothing.
    Nothing else of the state changes. *)
Theorem removeFile_takes_out_one_position :
  forall (index : nat) (st : State),
    let st' := removeFile index st in
    uploadedFiles st'
    = firstn index (uploadedFiles st) ++ skipn (S index) (uploadedFiles st)
    /\ ((List.length (uploadedFiles st) <= index)%nat ->
        uploadedFiles st' = uploadedFiles st)
    /\ extractedExpenses st' = extractedExpenses st
    /\ selectedItems st' = selectedItems st
    /\ isProcessing st' = isProcessing st.
Proof.
  intros index st. cbv zeta. simpl.
  assert (H : filterIndex index 0 (uploadedFiles st)
              = firstn index (uploadedFiles st)
                ++ skipn (S index) (uploadedFiles st)).
  { rewrite filterIndex_from by lia. now rewrite Nat.sub_0_r. }
  split; [exact H|]. split; [|repeat split].
  intro Hlen. rewrite H, firstn_all2, skipn_all2 by lia. apply app_nil_r.
Qed.

Lemma filter_length_all {A : Type} (p : A -> bool) (l : list A) :
  (List.length (filter p l) =? List.length l)%nat = forallb p l.
Proof.
  destruct (forallb p l) eqn:Hall.
  - rewrite forallb_filter_id by assumption. apply Nat.eqb_refl.
  - apply Nat.eqb_neq. intro Hlen.
    apply filter_length_forallb in Hlen. congruence.
Qed.

(** X21: an upload keeps the files whose type names an image or a PDF, in
    their order after those kept before, and drops the others; the
    "Invalid Files" toast is shown exactly when a file was dropped. *)
Theorem upload_keeps_images_and_pdfs :
  forall (files : list File) (st : State),
    let (st', toasts) := handleFileUpload files st in
    uploadedFiles st' = uploadedFiles st ++ filter isValidFile files
    /\ toasts
       = (if forallb isValidFile files then []
          else [ mkToast "Invalid Files"
                   "Only image and PDF files are supported."
                   (Some "destructive") ])
    /\ (forallb isValidFile files = true ->
        uploadedFiles st' = uploadedFiles st ++ files).
Proof.
  intros files st. unfold handleFileUpload.
  rewrite filter_length_all. split; [reflexivity|]. split.
  - now destruct (forallb isValidFile files).
  - intro Hall. simpl. now rewrite forallb_filter_id.
Qed.

End Matcher.

(** ** The states the expense matcher reaches *)

Section MatcherInvariant.
Import JS ExpenseReceiptMatcher.
Local Open Scope string_scope.
Local Open Scope list_scope.

Lemma filterIndex_forallb {A : Type} (p : A -> bool) (index : nat) (l : list A) :
  forall i : nat, forallb p l = true -> forallb p (filterIndex index i l) = true.
Proof.
  induction l as [|x l IH]; intros i H; simpl; [reflexivity|].
  simpl in H. apply andb_true_iff in H. destruct H as [Hx Hl].
  destruct (i =? index)%nat; simpl; [now apply IH|].
  rewrite Hx. now apply IH.
Qed.

Lemma toggle_keeps_selection_sound (itemId : string) (st : State) :
  In itemId (map ExpenseItem.id (extractedExpenses st)) ->
  Notions.matcherInvariant st ->
  Notions.matcherInvariant (toggleItemSelection itemId st).
Proof.
  intros Hid [Hfiles [Hnodup [Hincl Hshown]]].
  unfold Notions.matcherInvariant, toggleItemSelection. simpl.
  split; [assumption|]. split; [|split; [|assumption]].
  - destruct (StringSet.has (selectedItems st) itemId) eqn:Hhas.
    + now apply NoDup_filter.
    + unfold StringSet.add. rewrite Hhas.
      apply NoDup_app; [assumption|repeat constructor; intros []|].
      intros a Ha [Heq|[]]. subst a.
      apply has_In in Ha. congruence.
  - destruct (StringSet.has (selectedItems st) itemId) eqn:Hhas.
    + intros a Ha. apply filter_In in Ha. apply Hincl. tauto.
    + unfold StringSet.add. rewrite Hhas. intros a Ha.
      apply in_app_iff in Ha. destruct Ha as [Ha|[Ha|[]]];
        [now apply Hincl | now subst a].
Qed.

Lemma handle_keeps_invariant (p : Page) (ev : event) :
  Notions.matcherInvariant (state p) ->
  Notions.matcherInvariant (state (handle p ev)).
Proof.
  intros Hinv. pose proof Hinv as [Hfiles [Hnodup [Hincl Hshown]]].
  destruct ev as [files|index| | |i| ]; simpl.
  - unfold Notions.matcherInvariant. simpl.
    rewrite forallb_app, Hfiles, forallb_filter. tauto.
  - unfold Notions.matcherInvariant. simpl.
    rewrite filterIndex_forallb by assumption. tauto.
  - unfold processReceipts.
    destruct (List.length (uploadedFiles (state p)) =? 0)%nat;
      simpl; [assumption|].
    unfold Notions.matcherInvariant. simpl. tauto.
  - destruct (timers p) as [|n]; [assumption|]. simpl.
    unfold Notions.matcherInvariant. simpl.
    split; [assumption|]. split; [assumption|]. split; [|now right].
    destruct Hshown as [Hnone|Hmock]; rewrite ?Hnone, ?Hmock in Hincl;
      [|exact Hincl].
    intros a Ha. destruct (Hincl a Ha).
  - unfold clickExpense.
    destruct (nth_error (extractedExpenses (state p)) i) as [item|] eqn:Hnth;
      [|assumption].
    apply toggle_keeps_selection_sound; [|assumption].
    apply in_map. now apply nth_error_In in Hnth.
  - unfold addSelectedToInvoice.
    destruct (List.length (selectedExpenses (state p)) =? 0)%nat;
      simpl; [assumption|].
    unfold Notions.matcherInvariant. simpl.
    split; [reflexivity|]. split; [constructor|]. split; [|now left].
    intros a [].
Qed.

Lemma pages_keep_invariant (evs : list event) :
  forall p : Page,
    Notions.matcherInvariant (state p) ->
    Notions.matcherInvariant (state (fold_left handle evs p)).
Proof.
  induction evs as [|ev rest IH]; intros p Hinv; simpl; [assumption|].
  apply IH. now apply handle_keeps_invariant.
Qed.

Lemma pages_keep_invariant_from_start (evs : list event) :
  Notions.matcherInvariant (state (pageAfter evs)).
Proof.
  unfold pageAfter. apply pages_keep_invariant.
  unfold Notions.matcherInvariant. simpl.
  split; [reflexivity|]. split; [constructor|]. split; [|now left].
  intros a [].
Qed.

(** X22: through every sequence of uploads, removals, processing runs,
    clicks on expenses and additions to the invoice, the matcher keeps only
    image and PDF files, its selection holds no id twice and only ids of
    expenses it shows, and the expenses it shows are none or the canned
    four. *)
Theorem matcher_invariant :
  forall evs : list event,
    Notions.matcherInvariant (state (pageAfter evs)).
Proof.
  exact pages_keep_invariant_from_start.
Qed.

(** X23: whenever the "Add Selected to Invoice" button is enabled, that is
    the selection is not empty, a click hands a non-empty list of expenses
    to the invoice and resets the matcher; the "No Items Selected" refusal
    cannot be reached from the page. *)
Theorem enabled_button_always_adds :
  forall evs : list event,
    let st := state (pageAfter evs) in
    StringSet.size (selectedItems st) <> 0%nat ->
    exists (expenses : list ExpenseItem.t) (toasts : list Toast),
      addSelectedToInvoice st
      = (Some expenses, mkState (isProcessing st) [] [] [], toasts)
      /\ expenses = selectedExpenses st
      /\ expenses <> [].
Proof.
  intros evs st Hsize.
  destruct (pages_keep_invariant_from_start evs) as [_ [_ [Hincl _]]].
  fold st in Hincl.
  assert (Hne : selectedExpenses st <> []).
  { unfold StringSet.size in Hsize.
    destruct (selectedItems st) as [|x rest] eqn:Hsel; [contradiction|].
    assert (Hx : In x (map ExpenseItem.id (extractedExpenses st)))
      by (apply Hincl; now left).
    apply in_map_iff in Hx. destruct Hx as [item [Hid Hitem]].
    intro Hnil.
    assert (Hin : In item (selectedExpenses st)).
    { unfold selectedExpenses. apply filter_In. split; [assumption|].
      rewrite Hsel, Hid. apply has_In. now left. }
    rewrite Hnil in Hin. contradiction. }
  unfold addSelectedToInvoice.
  destruct (selectedExpenses st) as [|e rest] eqn:Hsel; [contradiction|].
  simpl. eexists. eexists. split; [reflexivity|]. split; [reflexivity|].
  discriminate.
Qed.

(** The statement above after the second and the fourth expense were
    clicked. *)
Lemma enabled_button_always_adds_witness :
  exists (expenses : list ExpenseItem.t) (toasts : list Toast),
    addSelectedToInvoice (state (pageAfter MoreSamples.matcherSession))
    = (Some expenses,
       mkState (isProcessing (state (pageAfter MoreSamples.matcherSession)))
         [] [] [],
       toasts)
    /\ expenses = selectedExpenses (state (pageAfter MoreSamples.matcherSession))
    /\ expenses <> [].
Proof.
  apply (enabled_button_always_adds MoreSamples.matcherSession).
  vm_compute. discriminate.
Defined.

(** X24: the expenses handed to the invoice come in the order in which
    they are shown, not in the order in which they were clicked: two
    selections with the same ids select the same list. *)
Theorem click_order_does_not_matter :
  forall st st' : State,
    extractedExpenses st' = extractedExpenses st ->
    (forall x : string,
        StringSet.has (selectedItems st') x = StringSet.has (selectedItems st) x) ->
    selectedExpenses st' = selectedExpenses st.
Proof.
  intros st st' Hshown Hsame. unfold selectedExpenses. rewrite Hshown.
  apply filter_ext. intro item. apply Hsame.
Qed.

(** The statement above for the fourth expense clicked before the second,
    and after it. *)
Lemma click_order_does_not_matter_witness :
  selectedExpenses
    (state (pageAfter [ Upload [MoreSamples.receipt]; ProcessReceipts;
                        TimerFires; ClickExpense 1; ClickExpense 3 ]))
  = selectedExpenses (state (pageAfter MoreSamples.matcherSession)).
Proof.
  apply click_order_does_not_matter.
  - reflexivity.
  - intro x.
    change (StringSet.has ["2"; "4"] x = StringSet.has ["4"; "2"] x).
    unfold StringSet.has, existsb. rewrite !orb_false_r. apply orb_comm.
Defined.

End MatcherInvariant.

(** ** The enriched client on the invoice *)

Section EnrichedClient.
Import JS PDF.
Local Open Scope string_scope.
Local Open Scope list_scope.
Local Open Scope float_scope.

Lemma or_default_is_truthy (s d : string) :
  truthy d = true -> truthy (or_default (Some s) d) = true.
Proof.
  intro Hd. unfold or_default. now destruct (truthy s) eqn:Hs.
Qed.

Lemma billTo_enriched (name email : string) :
  let info := ClientInfoEnricher.mockEnrichedInfo name email in
  InvoiceGenerator.billTo (InvoiceForm.ofEnrichedClient info)
  = [ InvoiceGenerator.drawText [Lit "Bill To:"] 120 50;
      InvoiceGenerator.drawText
        [Lit (ClientInfoEnricher.ClientInfo.name info)] 120 60;
      InvoiceGenerator.drawText [Lit "TechCorp Solutions"] 120 70;
      InvoiceGenerator.drawText
        [Lit (ClientInfoEnricher.ClientInfo.email info)] 120 80 ].
Proof.
  cbv zeta. unfold InvoiceGenerator.billTo.
  change (InvoiceGenerator.ClientInfo.email
            (InvoiceForm.ofEnrichedClient
               (ClientInfoEnricher.mockEnrichedInfo name email)))
    with (or_default (Some email) "john.mitchell@techcorp.com").
  rewrite or_default_is_truthy by reflexivity. reflexivity.
Qed.

(** X25: a search is refused exactly when the name and the e-mail address
    are both blank.  Otherwise the client found carries the name and the
    address entered, each replaced by the canned one when it is empty (a
    blank name that is not empty is kept as it is), and once applied to the
    invoice the PDF's "Bill To:" block is four lines: the label, that name,
    the canned company and that address. *)
Theorem enriched_client_on_the_invoice :
  forall (name email : string) (panel : ClientInfoEnricher.State)
         (st : InvoiceGenerator.State),
    let panel0 := ClientInfoEnricher.setClientEmail email
                    (ClientInfoEnricher.setClientName name panel) in
    let (panel1, toasts) := ClientInfoEnricher.search panel0 in
    if Spec.isBlank name && Spec.isBlank email then
      panel1 = panel0
      /\ toasts
         = [ mkToast "Missing Information"
               "Please provide either a client name or email address."
               (Some "destructive") ]
    else
      exists info : ClientInfoEnricher.ClientInfo.t,
        fst (ClientInfoEnricher.applyClientInfo panel1) = Some info
        /\ ClientInfoEnricher.ClientInfo.name info
           = (if String.eqb name "" then "John Mitchell" else name)
        /\ ClientInfoEnricher.ClientInfo.email info
           = (if String.eqb email "" then "john.mitchell@techcorp.com"
              else email)
        /\ InvoiceGenerator.billTo
             (InvoiceGenerator.clientInfo
                (InvoiceForm.handleClientInfoUpdate info st))
           = [ InvoiceGenerator.drawText [Lit "Bill To:"] 120 50;
               InvoiceGenerator.drawText
                 [Lit (ClientInfoEnricher.ClientInfo.name info)] 120 60;
               InvoiceGenerator.drawText [Lit "TechCorp Solutions"] 120 70;
               InvoiceGenerator.drawText
                 [Lit (ClientInfoEnricher.ClientInfo.email info)] 120 80 ].
Proof.
  intros name email panel st. cbv zeta.
  unfold ClientInfoEnricher.search, ClientInfoEnricher.enrichClientInfo.
  simpl. rewrite !truthy_trim, !negb_involutive.
  destruct (Spec.isBlank name && Spec.isBlank email); [split; reflexivity|].
  exists (ClientInfoEnricher.mockEnrichedInfo name email).
  split; [reflexivity|].
  split; [apply or_default_some|]. split; [apply or_default_some|].
  apply billTo_enriched.
Qed.

End EnrichedClient.

(** ** The dispute resolver *)

Section Disputes.
Import JS PDF DisputeResolverBot.
Local Open Scope list_scope.
Local Open Scope string_scope.

Lemma prefix_append (n rest : string) : String.prefix n (n ++ rest) = true.
Proof.
  induction n as [|c n IH]; simpl; [now destruct rest|].
  destruct (ascii_dec c c) as [_|Hneq]; [assumption|contradiction].
Qed.

Lemma includes_prefix (s sub : string) :
  String.prefix sub s = true -> includes s sub = true.
Proof.
  intro H. destruct s as [|c s].
  - change (String.prefix sub "" || false = true). now rewrite H.
  - change (String.prefix sub (String c s) || includes s sub = true).
    now rewrite H.
Qed.

Lemma includes_append_l (before s sub : string) :
  includes s sub = true -> includes (before ++ s) sub = true.
Proof.
  intro H. induction before as [|c before IH]; [assumption|].
  change (String.prefix sub (String c (before ++ s))
          || includes (before ++ s) sub = true).
  rewrite IH. apply orb_true_r.
Qed.

(** A string includes what it holds between two others. *)
Lemma includes_middle (before n rest : string) :
  includes (before ++ n ++ rest) n = true.
Proof.
  apply includes_append_l, includes_prefix, prefix_append.
Qed.

(** A string includes what it ends with. *)
Lemma includes_end (before n : string) : includes (before ++ n) n = true.
Proof.
  rewrite <- (append_empty_r n) at 1. apply includes_middle.
Qed.

(** X26: a generation is refused exactly when the invoice number or the
    client's name is empty or the amount is [<= 0]; a blank name that is
    not empty passes.  Otherwise the messages replace the earlier ones:
    there are two of them for a firm reminder and one in every other case,
    all of the type selected, with different ids, and of the tone selected
    but for the final notice, which is always firm. *)
Theorem generated_messages_match_the_selection :
  forall st : State,
    let (st', toasts) := generate st in
    if negb (truthy (invoiceNumber (context st)))
       || negb (truthy (clientName (context st)))
       || PrimFloat.leb (amount (context st)) 0
    then
      st' = st
      /\ toasts
         = [ mkToast "Missing Information"
               "Please fill in invoice number, client name, and amount."
               (Some "destructive") ]
    else
      let messages := generatedMessages st' in
      isGenerating st' = false
      /\ List.length messages
         = match messageType st, selectedTone st with
           | Reminder, Firm => 2%nat
           | _, _ => 1%nat
           end
      /\ Forall (fun m => type m = messageType st) messages
      /\ Forall (fun m =>
                   tone m = match messageType st with
                            | FinalNotice => Firm
                            | _ => selectedTone st
                            end) messages
      /\ NoDup (map id messages).
Proof.
  intro st. unfold generate, generateMessages, missingInformation.
  destruct (negb (truthy (invoiceNumber (context st)))
            || negb (truthy (clientName (context st)))
            || PrimFloat.leb (amount (context st)) 0);
    [split; reflexivity|].
  cbv zeta. simpl.
  destruct (messageType st), (selectedTone st); simpl;
    repeat split; repeat constructor; simpl; intuition discriminate.
Qed.

(** X27: every generated message names the invoice in its subject: the
    invoice number of the context is part of the subject of each message,
    whatever the type and the tone. *)
Theorem subjects_name_the_invoice :
  forall (context : DisputeContext) (messageType : MessageType) (tone : Tone),
    Forall (fun m => includes (subject m) (invoiceNumber context) = true)
      (mockMessages context messageType tone).
Proof.
  intros context messageType tone.
  destruct messageType; unfold mockMessages.
  - apply Forall_app. split.
    + constructor; [apply includes_end|constructor].
    + destruct tone; constructor; [apply includes_end|constructor].
  - constructor; [apply includes_end|constructor].
  - constructor; [apply includes_middle|constructor].
Qed.

Lemma unpriced_subtotal (items : list InvoiceGenerator.InvoiceItem.t) :
  Forall (fun item => InvoiceGenerator.InvoiceItem.amount item = 0%float) items ->
  InvoiceGenerator.subtotal items = 0%float.
Proof.
  unfold InvoiceGenerator.subtotal. intro H.
  induction H as [|item rest Hitem _ IH]; simpl; [reflexivity|].
  rewrite Hitem. exact IH.
Qed.

(** X28: an invoice none of whose items has an amount cannot be chased:
    its total is 0, and the dispute resolver opened on it refuses to
    generate a message, whatever the invoice number and the client. *)
Theorem unpriced_invoice_cannot_be_chased :
  forall st : InvoiceGenerator.State,
    Forall (fun item => InvoiceGenerator.InvoiceItem.amount item = 0%float)
      (InvoiceGenerator.items st) ->
    let bot := initialState (Some (InvoiceForm.invoiceContext st)) in
    InvoiceGenerator.total (InvoiceGenerator.items st) = 0%float
    /\ generate bot
       = (bot,
          [ mkToast "Missing Information"
              "Please fill in invoice number, client name, and amount."
              (Some "destructive") ]).
Proof.
  intros st Hitems. cbv zeta.
  assert (Htotal : InvoiceGenerator.total (InvoiceGenerator.items st) = 0%float).
  { unfold InvoiceGenerator.total, InvoiceGenerator.tax.
    now rewrite unpriced_subtotal. }
  split; [assumption|].
  unfold generate, generateMessages, missingInformation. simpl.
  rewrite Htotal.
  change (PrimFloat.leb 0 0) with true. now rewrite orb_true_r.
Qed.

(** The statement above for three items of which none is priced. *)
Lemma unpriced_invoice_cannot_be_chased_witness :
  let st := Sample.invoice "INV-001" MoreSamples.unpricedItems "" in
  let bot := initialState (Some (InvoiceForm.invoiceContext st)) in
  InvoiceGenerator.total (InvoiceGenerator.items st) = 0%float
  /\ generate bot
     = (bot,
        [ mkToast "Missing Information"
            "Please fill in invoice number, client name, and amount."
            (Some "destructive") ]).
Proof.
  apply (unpriced_invoice_cannot_be_chased
           (Sample.invoice "INV-001" MoreSamples.unpricedItems "")).
  vm_compute. repeat constructor.
Defined.

End Disputes.
